(** * R&D subject backend: crawler, ingestion pipeline and search API

    A shallow embedding of [nrf_crawler.py], [pdf_to_structured_data.py]
    and [main.py], and the properties of the specification that concern
    them.

    Python values are modelled as follows.
    - A [str] is the list of its Unicode code points ([pystr]), so that
      slicing ([s[:n]]) and character classes count characters as Python
      does.  The character classes of [str.isspace], [str.isdecimal] /
      [\d] and [str.isdigit] are the tables of Unicode 14.
    - A dict is an association list without repeated keys, in insertion
      order.
    - A function whose body is wrapped in [try: ... except Exception]
      returns [option]; code that can let an exception escape returns
      [result].
    - External services (HTTP server, file system, LLM, embedding
      endpoint, database) are oracles of an environment record; the calls
      made to them are recorded in the state that the functions thread. *)

From Stdlib Require Import ZArith NArith List Bool Lia Permutation Sorted.
From Stdlib Require Import Strings.Ascii Strings.String DecimalString.
From stdpp Require Import base option list gmap.

Import ListNotations.
Local Open Scope N_scope.
#[local] Set Warnings "-register-all".

(** ** Python strings *)

Module Py.

(** A string is a sequence of code points. *)
Definition pystr : Type := list N.

(** Decoding of the UTF-8 bytes of a literal of this file. *)
Fixpoint utf8_decode (bs : list N) : pystr :=
  match bs with
  | [] => []
  | b :: t =>
      if b <? 128 then b :: utf8_decode t
      else if b <? 224 then
        match t with
        | b1 :: t1 =>
            ((b mod 32) * 64 + b1 mod 64) :: utf8_decode t1
        | _ => [65533]
        end
      else if b <? 240 then
        match t with
        | b1 :: b2 :: t2 =>
            ((b mod 16) * 4096 + (b1 mod 64) * 64 + b2 mod 64)
              :: utf8_decode t2
        | _ => [65533]
        end
      else
        match t with
        | b1 :: b2 :: b3 :: t3 =>
            ((b mod 8) * 262144 + (b1 mod 64) * 4096
             + (b2 mod 64) * 64 + b3 mod 64) :: utf8_decode t3
        | _ => [65533]
        end
  end.

Definition str (s : string) : pystr :=
  utf8_decode (List.map N_of_ascii (list_ascii_of_string s)).

(** A literal in which the grave accent stands for the double quote. *)
Definition template (s : string) : pystr :=
  List.map (fun c => if c =? 96 then 34 else c) (str s).

Fixpoint eqb (s t : pystr) : bool :=
  match s, t with
  | [], [] => true
  | a :: s', b :: t' => (a =? b) && eqb s' t'
  | _, _ => false
  end.

(** [in_ranges c rs]: [c] lies in one of the closed intervals [rs]. *)
Definition in_ranges (c : N) (rs : list (N * N)) : bool :=
  existsb (fun r => (fst r <=? c) && (c <=? snd r)) rs.

(** [str.isspace] on one character. *)
Definition space_ranges : list (N * N) :=
  [(9, 13); (28, 32); (133, 133); (160, 160); (5760, 5760);
   (8192, 8202); (8232, 8233); (8239, 8239); (8287, 8287);
   (12288, 12288)].

Definition is_space (c : N) : bool := in_ranges c space_ranges.

(** Unicode decimal digits (category Nd): what [\d] matches and what
    [int] parses.  Every interval starts at a digit zero and holds a
    whole number of runs 0..9. *)
Definition decimal_ranges : list (N * N) :=
  [(48, 57); (1632, 1641); (1776, 1785); (1984, 1993); (2406, 2415);
   (2534, 2543); (2662, 2671); (2790, 2799); (2918, 2927); (3046, 3055);
   (3174, 3183); (3302, 3311); (3430, 3439); (3558, 3567); (3664, 3673);
   (3792, 3801); (3872, 3881); (4160, 4169); (4240, 4249); (6112, 6121);
   (6160, 6169); (6470, 6479); (6608, 6617); (6784, 6793); (6800, 6809);
   (6992, 7001); (7088, 7097); (7232, 7241); (7248, 7257);
   (42528, 42537); (43216, 43225); (43264, 43273); (43472, 43481);
   (43504, 43513); (43600, 43609); (44016, 44025); (65296, 65305);
   (66720, 66729); (68912, 68921); (69734, 69743); (69872, 69881);
   (69942, 69951); (70096, 70105); (70384, 70393); (70736, 70745);
   (70864, 70873); (71248, 71257); (71360, 71369); (71472, 71481);
   (71904, 71913); (72016, 72025); (72784, 72793); (73040, 73049);
   (73120, 73129); (92768, 92777); (92864, 92873); (93008, 93017);
   (120782, 120831); (123200, 123209); (123632, 123641);
   (125264, 125273); (130032, 130041)].

Definition decimal_value (c : N) : option N :=
  match List.find (fun r => (fst r <=? c) && (c <=? snd r)) decimal_ranges with
  | Some r => Some ((c - fst r) mod 10)
  | None => None
  end.

Definition is_decimal (c : N) : bool :=
  match decimal_value c with Some _ => true | None => false end.

(** Characters that [str.isdigit] accepts although they are no decimal
    digits: superscripts, subscripts, circled digits and the like. *)
Definition other_digit_ranges : list (N * N) :=
  [(178, 179); (185, 185); (4969, 4977); (6618, 6618); (8304, 8304);
   (8308, 8313); (8320, 8329); (9312, 9320); (9332, 9340); (9352, 9360);
   (9450, 9450); (9461, 9469); (9471, 9471); (10102, 10110);
   (10112, 10120); (10122, 10130); (68160, 68163); (69216, 69224);
   (69714, 69722); (127232, 127242)].

Definition is_digit_char (c : N) : bool :=
  is_decimal c || in_ranges c other_digit_ranges.

(** [s.isdigit()]: non-empty and every character is a digit. *)
Definition isdigit (s : pystr) : bool :=
  match s with [] => false | _ => forallb is_digit_char s end.

Fixpoint drop_while {A} (p : A -> bool) (l : list A) : list A :=
  match l with
  | [] => []
  | x :: l' => if p x then drop_while p l' else l
  end.

Fixpoint take_while {A} (p : A -> bool) (l : list A) : list A :=
  match l with
  | [] => []
  | x :: l' => if p x then x :: take_while p l' else []
  end.

(** [s.strip()] *)
Definition lstrip (s : pystr) : pystr := drop_while is_space s.
Definition rstrip (s : pystr) : pystr := rev (drop_while is_space (rev s)).
Definition strip (s : pystr) : pystr := rstrip (lstrip s).

Fixpoint startswith (p s : pystr) : bool :=
  match p, s with
  | [], _ => true
  | a :: p', b :: s' => (a =? b) && startswith p' s'
  | _ :: _, [] => false
  end.

Definition endswith (p s : pystr) : bool := startswith (rev p) (rev s).

(** [p in s] *)
Fixpoint contains (p s : pystr) : bool :=
  startswith p s ||
  match s with
  | [] => false
  | _ :: s' => contains p s'
  end.

(** Outcome of code that can let an exception escape. *)
Inductive exc : Type :=
| TypeError
| ValueError
| ServiceError (msg : pystr).

Inductive result (A : Type) : Type :=
| Ret (a : A)
| Raise (e : exc).
Arguments Ret {A} a.
Arguments Raise {A} e.

(** [int(s)] for a string of digit characters: the value when all of
    them are decimal digits, [ValueError] otherwise. *)
Fixpoint int_digits (acc : N) (s : pystr) : result N :=
  match s with
  | [] => Ret acc
  | c :: s' =>
      match decimal_value c with
      | Some d => int_digits (acc * 10 + d) s'
      | None => Raise ValueError
      end
  end.

Definition int (s : pystr) : result N :=
  match s with [] => Raise ValueError | _ => int_digits 0 s end.

(** [s[:n]] *)
Definition slice_to (n : N) (s : pystr) : pystr := take (N.to_nat n) s.

Definition slash : N := 47.

(** [os.path.join] of two components and [os.path.basename] (POSIX). *)
Definition path_join (folder name : pystr) : pystr :=
  if startswith [slash] name then name
  else if eqb folder [] || endswith [slash] folder then folder ++ name
  else folder ++ [slash] ++ name.

Definition basename (path : pystr) : pystr :=
  rev (take_while (fun c => negb (c =? slash)) (rev path)).

(** ASCII lower case.  [lower_ascii s] and [s.lower()] have the same
    suffix tests against an ASCII suffix like [.pdf]: the only characters
    whose lower case contains one of its four characters are those four
    and their ASCII capitals. *)
Definition lower_ascii (s : pystr) : pystr :=
  List.map (fun c => if (65 <=? c) && (c <=? 90) then c + 32 else c) s.

(** [sorted(l, key=key, reverse=True)]: stable, largest key first. *)
Fixpoint insert_desc {A} (key : A -> N) (x : A) (l : list A) : list A :=
  match l with
  | [] => [x]
  | y :: l' =>
      if key y <=? key x then x :: l else y :: insert_desc key x l'
  end.

Fixpoint sorted_desc {A} (key : A -> N) (l : list A) : list A :=
  match l with
  | [] => []
  | x :: l' => insert_desc key x (sorted_desc key l')
  end.

(** JSON values, as [json.loads] returns them and as the database client
    sends them.  Numbers are opaque to the program; integers stand for
    them. *)
Inductive json : Type :=
| JNull
| JBool (b : bool)
| JNum (z : Z)
| JStr (s : pystr)
| JArr (l : list json)
| JObj (d : list (pystr * json)).

(** A dict with string keys. *)
Definition dict : Type := list (pystr * json).

Fixpoint dict_lookup (k : pystr) (d : dict) : option json :=
  match d with
  | [] => None
  | (k', v) :: d' => if eqb k' k then Some v else dict_lookup k d'
  end.

(** [d.get(k)] and [d.get(k, default)] *)
Definition dict_get (d : dict) (k : pystr) : json :=
  match dict_lookup k d with Some v => v | None => JNull end.

Definition dict_get_default (d : dict) (k : pystr) (default : json) : json :=
  match dict_lookup k d with Some v => v | None => default end.

(** [d[k] = v] *)
Fixpoint dict_set (k : pystr) (v : json) (d : dict) : dict :=
  match d with
  | [] => [(k, v)]
  | (k', v') :: d' =>
      if eqb k' k then (k', v) :: d' else (k', v') :: dict_set k v d'
  end.

End Py.

Import Py.

(** ** nrf_crawler.py *)

Module Crawler.

(** The character class of the substitution in [download_file]: less
    than, greater than, colon, double quote, slash, backslash, vertical
    bar, question mark and asterisk. *)
Definition illegal_chars : list N := [60; 62; 58; 34; 47; 92; 124; 63; 42].

Definition illegal (c : N) : bool := existsb (N.eqb c) illegal_chars.

Definition underscore : N := 95.

(** [re.sub] of that class by an underscore: every match, that is
    every illegal character, is replaced. *)
Definition sanitize (name : pystr) : pystr :=
  List.map (fun c => if illegal c then underscore else c) name.


(** *** get_total_pages *)

(** What the HTML parser yields for the two selections the function
    makes: the text of the first [.list_info] element, if there is one,
    and the texts of the [.pagination a.page-link] elements in document
    order. *)
Record page_view : Type := {
  list_info : option pystr;
  pagination : list pystr
}.

(** [re.search(r'(\d+)/(\d+)', text)], group 2.  At a given start the
    first group can only be the whole run of digits there, since a
    shorter one is followed by a digit and not by the slash. *)
Definition match_indicator (s : pystr) : option pystr :=
  match take_while is_decimal s with
  | [] => None
  | _ :: _ =>
      match drop_while is_decimal s with
      | c :: r =>
          if c =? slash then
            match take_while is_decimal r with
            | [] => None
            | g2 => Some g2
            end
          else None
      | [] => None
      end
  end.

Fixpoint search_indicator (s : pystr) : option pystr :=
  match match_indicator s with
  | Some g2 => Some g2
  | None =>
      match s with
      | [] => None
      | _ :: s' => search_indicator s'
      end
  end.

(** The loop over the pagination links: [last_page] is raised to every
    label that passes [isdigit]; [int] is applied to each such label. *)
Fixpoint scan_links (last_page : N) (links : list pystr) : result N :=
  match links with
  | [] => Ret last_page
  | link :: rest =>
      let text := strip link in
      if isdigit text then
        match int text with
        | Ret n => scan_links (N.max last_page n) rest
        | Raise e => Raise e
        end
      else scan_links last_page rest
  end.

Section TotalPages.

(** BeautifulSoup's parse of the page and the two selections. *)
Variable soup : pystr -> page_view.

Definition get_total_pages (html : pystr) : result N :=
  let view := soup html in
  let indicator :=
    match list_info view with
    | Some text => search_indicator text
    | None => None
    end in
  match indicator with
  | Some total => int total
  | None =>
      match pagination view with
      | [] => Ret 1
      | links => scan_links 1 links
      end
  end.

End TotalPages.

(** *** download_file *)

(** The extension guessed from the URL when the sanitized name has no
    dot, in the order of the source's [if]/[elif] chain. *)
Definition guess_ext (file_url : pystr) : pystr :=
  if contains (str ".hwp") file_url then str ".hwp"
  else if contains (str ".pdf") file_url then str ".pdf"
  else if contains (str ".xlsx") file_url then str ".xlsx"
  else if contains (str ".docx") file_url then str ".docx"
  else if contains (str ".hwpx") file_url then str ".hwpx"
  else [].

(** [safe_filename] as it stands before the existence test. *)
Definition requested_filename (file_url file_name : pystr) : pystr :=
  let safe_filename := strip (sanitize file_name) in
  if contains (str ".") safe_filename then safe_filename
  else safe_filename ++ guess_ext file_url.

Definition newline : N := 10.

(** [re.search] of the RFC 5987 form: the literal prefix followed by at
    least one character other than a newline; group 1 runs to the end of
    the line. *)
Fixpoint search_filename_star (h : pystr) : option pystr :=
  let lit := str "filename*=UTF-8''" in
  let here :=
    if startswith lit h then
      match take_while (fun c => negb (c =? newline)) (drop (length lit) h) with
      | [] => None
      | g => Some g
      end
    else None in
  match here with
  | Some g => Some g
  | None =>
      match h with
      | [] => None
      | _ :: h' => search_filename_star h'
      end
  end.

(** The plain form: [filename], characters other than semicolon, equals
    sign and newline, an equals sign, an optional quote, and group 1, the
    longest non-empty run without quote or semicolon. *)
Definition is_quote (c : N) : bool := (c =? 34) || (c =? 39).
Definition name_char (c : N) : bool := negb (is_quote c || (c =? 59)).
Definition param_char (c : N) : bool :=
  negb ((c =? 59) || (c =? 61) || (c =? newline)).

Definition match_filename_plain (h : pystr) : option pystr :=
  if startswith (str "filename") h then
    match drop_while param_char (drop 8 h) with
    | c :: r =>
        if c =? 61 then
          let r' := match r with
                    | q :: r0 => if is_quote q then r0 else r
                    | [] => r
                    end in
          match take_while name_char r' with
          | [] => None
          | g => Some g
          end
        else None
    | [] => None
    end
  else None.

Fixpoint search_filename_plain (h : pystr) : option pystr :=
  match match_filename_plain h with
  | Some g => Some g
  | None =>
      match h with
      | [] => None
      | _ :: h' => search_filename_plain h'
      end
  end.

(** An HTTP response as far as [download_file] looks at it. *)
Record response : Type := {
  content_disposition : pystr;   (* the header, empty when absent *)
  status_ok : bool;              (* [raise_for_status] passes *)
  chunks : list (list N);        (* what [iter_content] delivers *)
  stream_ok : bool               (* ... without raising at the end *)
}.

(** The outside world of the crawler: the server's answer to a GET
    (none when the request raises), and whether a path can be opened for
    writing. *)
Record env : Type := {
  respond : pystr -> option response;
  can_open : pystr -> bool
}.

(** The state: the files on disk, and the URLs requested so far. *)
Record world : Type := {
  fs : gmap pystr (list N);
  requests : list pystr
}.

Definition path_exists (w : world) (path : pystr) : bool :=
  match fs w !! path with Some _ => true | None => false end.

Definition send_request (file_url : pystr) (w : world) : world :=
  {| fs := fs w; requests := requests w ++ [file_url] |}.

Definition write_file (path : pystr) (data : list N) (w : world) : world :=
  {| fs := <[path := data]> (fs w); requests := requests w |}.

Section Download.

(** [urllib.parse.unquote] *)
Variable unquote : pystr -> pystr.

(** The name taken from the Content-Disposition header, if any. *)
Definition header_filename (cd : pystr) : option pystr :=
  match cd with
  | [] => None
  | _ =>
      if contains (str "filename*=") cd then
        match search_filename_star cd with
        | Some g => Some (strip (sanitize (unquote g)))
        | None => None
        end
      else if contains (str "filename=") cd then
        match search_filename_plain cd with
        | Some g => Some (strip (sanitize (unquote g)))
        | None => None
        end
      else None
  end.

Definition download_file (e : env) (file_url file_name notice_folder : pystr)
    (w : world) : option pystr * world :=
  let safe_filename := requested_filename file_url file_name in
  let file_path := path_join notice_folder safe_filename in
  if path_exists w file_path then (Some file_path, w)
  else
    let w1 := send_request file_url w in
    match respond e file_url with
    | None => (None, w1)
    | Some resp =>
        let file_path :=
          match header_filename (content_disposition resp) with
          | Some safe_filename => path_join notice_folder safe_filename
          | None => file_path
          end in
        if negb (status_ok resp) then (None, w1)
        else if negb (can_open e file_path) then (None, w1)
        else
          let w2 := write_file file_path (concat (chunks resp)) w1 in
          if stream_ok resp then (Some file_path, w2) else (None, w2)
    end.

End Download.

End Crawler.

(** ** pdf_to_structured_data.py *)

Module Ingest.

(** The prompt of [extract_metadata] before and after the document
    text. *)
Definition prompt_head : pystr := Eval vm_compute in template "
다음은 정부 과제 공고문입니다. 이 내용을 분석하여 JSON 형식으로 메타데이터를 추출해주세요.

공고문 내용:
".

Definition prompt_tail : pystr := Eval vm_compute in template "

다음 JSON 형식으로 추출해주세요:

{
  `title`: `과제명`,
  `organization`: `주관기관명`,
  `deadline`: `접수 마감일 (YYYY-MM-DD 형식)`,
  `fullDeadline`: `전체 사업기간`,
  `status`: `접수중`,
  `date`: `공고일 (YYYY-MM-DD 형식)`,
  `description`: `과제 한줄 설명 (100자 이내)`,
  `tags`: [`태그1`, `태그2`, `태그3`],
  `overview`: `사업 개요 (300자 이내)`,
  `objectives`: [`목표1`, `목표2`],
  `eligibility_target`: `지원 대상`,
  `eligibility_requirements`: [`자격요건1`, `자격요건2`],
  `eligibility_restrictions`: [`제외대상1`],
  `support_amount`: `지원금액 요약`,
  `support_details`: [`지원내역1`, `지원내역2`]
}

중요:
- 문서에 없는 정보는 null로 표시
- 날짜는 YYYY-MM-DD 형식
- tags는 #없이 키워드만 (예: `인공지능`, `R&D`)
- 유효한 JSON만 응답
".

(** The three truncation limits. *)
Definition METADATA_CHARS : N := 15000.
Definition EMBEDDING_CHARS : N := 8000.
Definition CONTENT_CHARS : N := 5000.

(** The outside world of the pipeline.
    - [read_pdf path]: the pages of the file, each with the outcome of
      [extract_text] (none when it raises); none when opening or parsing
      the file raises.
    - [chat prompt]: the content of the model's reply; none when the
      request raises.
    - [json_loads]: [json.loads]; none when it raises.
    - [embed input]: the embedding vector; none when the request raises.
    - [insert data]: the rows the database returns for the insert; none
      when the request raises.
    - [now]: [datetime.now().isoformat()].
    - [walk dir]: the (root, files) pairs of [os.walk]. *)
Record env : Type := {
  read_pdf : pystr -> option (list (option pystr));
  chat : pystr -> option pystr;
  json_loads : pystr -> option json;
  embed : pystr -> option (list Z);
  insert : dict -> option (list dict);
  now : pystr;
  walk : pystr -> list (pystr * list pystr)
}.

(** Calls made to the external services, oldest first. *)
Inductive event : Type :=
| ChatCompletion (prompt : pystr)
| Embedding (input : pystr)
| Insert (data : dict).

Definition trace : Type := list event.

(** The loop [text += page.extract_text() + newline]. *)
Fixpoint join_pages (text : pystr) (pages : list (option pystr)) : option pystr :=
  match pages with
  | [] => Some text
  | Some page :: rest => join_pages (text ++ page ++ [10]) rest
  | None :: _ => None
  end.

Definition extract_text_from_pdf (e : env) (pdf_path : pystr) : option pystr :=
  match read_pdf e pdf_path with
  | Some pages =>
      match join_pages [] pages with
      | Some text => Some (strip text)
      | None => None
      end
  | None => None
  end.

Definition prompt_of (pdf_text : pystr) : pystr :=
  prompt_head ++ slice_to METADATA_CHARS pdf_text ++ prompt_tail.

(** Assigning [source_file] raises on anything but a dict; like every
    exception of the body this yields [None]. *)
Definition extract_metadata (e : env) (pdf_text pdf_filename : pystr)
    (tr : trace) : option dict * trace :=
  let prompt := prompt_of pdf_text in
  let tr := tr ++ [ChatCompletion prompt] in
  match chat e prompt with
  | Some content =>
      match json_loads e content with
      | Some (JObj metadata) =>
          (Some (dict_set (str "source_file") (JStr pdf_filename) metadata), tr)
      | _ => (None, tr)
      end
  | None => (None, tr)
  end.

Definition create_embedding (e : env) (text : pystr) (tr : trace)
    : option (list Z) * trace :=
  let text := slice_to EMBEDDING_CHARS text in
  (embed e text, tr ++ [Embedding text]).

(** The dict that [store_to_supabase] sends. *)
Definition record_of (e : env) (text : pystr) (metadata : dict)
    (embedding : list Z) : dict :=
  [ (str "content", JStr (slice_to CONTENT_CHARS text));
    (str "embedding", JArr (List.map JNum embedding));
    (str "title", dict_get metadata (str "title"));
    (str "organization", dict_get metadata (str "organization"));
    (str "deadline", dict_get metadata (str "deadline"));
    (str "full_deadline", dict_get metadata (str "fullDeadline"));
    (str "status", dict_get metadata (str "status"));
    (str "announcement_date", dict_get metadata (str "date"));
    (str "description", dict_get metadata (str "description"));
    (str "tags", dict_get_default metadata (str "tags") (JArr []));
    (str "overview", dict_get metadata (str "overview"));
    (str "objectives", dict_get_default metadata (str "objectives") (JArr []));
    (str "eligibility_target", dict_get metadata (str "eligibility_target"));
    (str "eligibility_requirements",
      dict_get_default metadata (str "eligibility_requirements") (JArr []));
    (str "eligibility_restrictions",
      dict_get_default metadata (str "eligibility_restrictions") (JArr []));
    (str "support_amount", dict_get metadata (str "support_amount"));
    (str "support_details",
      dict_get_default metadata (str "support_details") (JArr []));
    (str "source_file", dict_get metadata (str "source_file"));
    (str "created_at", JStr (now e)) ].

Definition store_to_supabase (e : env) (text : pystr) (metadata : dict)
    (embedding : list Z) (tr : trace) : option dict * trace :=
  let data := record_of e text metadata embedding in
  let tr := tr ++ [Insert data] in
  match insert e data with
  | Some (row :: _) => (Some row, tr)
  | Some [] => (None, tr)
  | None => (None, tr)
  end.

(** The expression [metadata.get('title', 'N/A')[:50]] of the progress
    message: a string or a list can be sliced, anything else raises
    (for a dict, KeyError from Python 3.12 on). *)
Definition title_preview (metadata : dict) : result unit :=
  match dict_get_default metadata (str "title") (JStr (str "N/A")) with
  | JStr _ | JArr _ => Ret tt
  | _ => Raise TypeError
  end.

(** No [try] surrounds the body: an exception leaves the function. *)
Definition process_pdf_file (e : env) (pdf_path : pystr) (tr : trace)
    : result (option dict) * trace :=
  match extract_text_from_pdf e pdf_path with
  | None | Some [] => (Ret None, tr)
  | Some text =>
      let filename := basename pdf_path in
      let '(metadata, tr) := extract_metadata e text filename tr in
      match metadata with
      | None | Some [] => (Ret None, tr)
      | Some metadata =>
          match title_preview metadata with
          | Raise ex => (Raise ex, tr)
          | Ret _ =>
              let '(embedding, tr) := create_embedding e text tr in
              match embedding with
              | None | Some [] => (Ret None, tr)
              | Some embedding =>
                  let '(result, tr) :=
                    store_to_supabase e text metadata embedding tr in
                  match result with
                  | Some ((_ :: _) as row) => (Ret (Some row), tr)
                  | _ => (Ret None, tr)
                  end
              end
          end
      end
  end.

Definition is_pdf (file : pystr) : bool :=
  endswith (str ".pdf") (lower_ascii file).

Definition find_pdf_files (e : env) (directory_path : pystr) : list pystr :=
  flat_map (fun rf => List.map (path_join (fst rf)) (List.filter is_pdf (snd rf)))
           (walk e directory_path).

(** The loop of [process_directory] over the files found. *)
Fixpoint process_files (e : env) (pdf_files : list pystr) (success_count : N)
    (tr : trace) : result N * trace :=
  match pdf_files with
  | [] => (Ret success_count, tr)
  | pdf_path :: rest =>
      match process_pdf_file e pdf_path tr with
      | (Raise ex, tr) => (Raise ex, tr)
      | (Ret (Some _), tr) => process_files e rest (success_count + 1) tr
      | (Ret None, tr) => process_files e rest success_count tr
      end
  end.

Definition process_directory (e : env) (directory_path : pystr) (tr : trace)
    : result N * trace :=
  process_files e (find_pdf_files e directory_path) 0 tr.

End Ingest.

(** ** main.py *)

Module Api.

(** Modelled from the spec: the schema of the table
    [government_projects], which is not part of the repository.  Every
    column has the type that the data model of the specification and the
    response models [ProjectDetail] and [ProjectSearchResult] give it:
    [title] and [organization] are strings, the columns the response
    models declare [Optional] may be NULL, and so may the array columns,
    which the handlers guard against null.  The columns [content] and
    [embedding], which no handler below reads, are left out; [created_at]
    is a timestamp. *)
Record row : Type := {
  id : Z;
  title : pystr;
  organization : pystr;
  deadline : option pystr;
  full_deadline : option pystr;
  status : option pystr;
  announcement_date : option pystr;
  description : option pystr;
  tags : option (list pystr);
  overview : option pystr;
  objectives : option (list pystr);
  eligibility_target : option pystr;
  eligibility_requirements : option (list pystr);
  eligibility_restrictions : option (list pystr);
  support_amount : option pystr;
  support_details : option (list pystr);
  source_file : option pystr;
  created_at : N
}.

(** The response models. *)
Record ProjectSearchResult : Type := {
  r_id : Z;
  r_title : pystr;
  r_organization : pystr;
  r_deadline : option pystr;
  r_description : option pystr;
  r_tags : list pystr;
  r_similarity : Z * Z     (* a float, as numerator and denominator *)
}.

Record ProjectDetail : Type := {
  d_id : Z;
  d_title : pystr;
  d_organization : pystr;
  d_deadline : option pystr;
  d_full_deadline : option pystr;
  d_status : option pystr;
  d_announcement_date : option pystr;
  d_description : option pystr;
  d_tags : list pystr;
  d_overview : option pystr;
  d_objectives : list pystr;
  d_eligibility_target : option pystr;
  d_eligibility_requirements : list pystr;
  d_eligibility_restrictions : list pystr;
  d_support_amount : option pystr;
  d_support_details : list pystr;
  d_source_file : option pystr
}.

(** What a handler answers: the body of a 200 response, or the
    [HTTPException] it raises.  [StrOf e] is [str(e)]. *)
Inductive detail : Type :=
| Message (s : pystr)
| StrOf (e : exc).

Inductive response (A : Type) : Type :=
| OK (body : A)
| HTTPException (status_code : N) (d : detail).
Arguments OK {A} body.
Arguments HTTPException {A} status_code d.

(** [x or []] *)
Definition or_empty (x : option (list pystr)) : list pystr :=
  match x with
  | Some ((_ :: _) as l) => l
  | _ => []
  end.

(** Query builder calls. *)
Inductive filter : Type :=
| EqId (i : Z)
| Ilike (pattern : pystr)          (* on [organization] *)
| EqStatus (s : pystr)
| ContainsTags (ts : list pystr).

Record query : Type := {
  filters : list filter;
  order_created_desc : bool;
  limit : option N
}.

(** The database: its rows, or the exception every request meets. *)
Inductive database : Type :=
| Up (rows : list row)
| Down (e : exc).

Definition opt_eqb (x : option pystr) (s : pystr) : bool :=
  match x with Some v => eqb v s | None => false end.

Definition mem (t : pystr) (l : list pystr) : bool := existsb (eqb t) l.

Section Handlers.

(** The database's ILIKE operator: pattern, then value. *)
Variable ilike : pystr -> pystr -> bool.

Definition satisfies (r : row) (f : filter) : bool :=
  match f with
  | EqId i => Z.eqb (id r) i
  | Ilike pattern => ilike pattern (organization r)
  | EqStatus s => opt_eqb (status r) s
  | ContainsTags ts =>
      match tags r with
      | Some l => forallb (fun t => mem t l) ts
      | None => false
      end
  end.

(** The rows a query returns; rows with equal [created_at] keep the
    order of the table. *)
Definition run (q : query) (rows : list row) : list row :=
  let selected := List.filter (fun r => forallb (satisfies r) (filters q)) rows in
  let ordered :=
    if order_created_desc q then sorted_desc created_at selected else selected in
  match limit q with
  | Some n => take (N.to_nat n) ordered
  | None => ordered
  end.

Definition execute (db : database) (q : query) : result (list row) :=
  match db with
  | Up rows => Ret (run q rows)
  | Down e => Raise e
  end.

(** The [ProjectDetail] built from the dict after the five
    assignments. *)
Definition to_detail (project : row) : ProjectDetail :=
  {| d_id := id project;
     d_title := title project;
     d_organization := organization project;
     d_deadline := deadline project;
     d_full_deadline := full_deadline project;
     d_status := status project;
     d_announcement_date := announcement_date project;
     d_description := description project;
     d_tags := or_empty (tags project);
     d_overview := overview project;
     d_objectives := or_empty (objectives project);
     d_eligibility_target := eligibility_target project;
     d_eligibility_requirements := or_empty (eligibility_requirements project);
     d_eligibility_restrictions := or_empty (eligibility_restrictions project);
     d_support_amount := support_amount project;
     d_support_details := or_empty (support_details project);
     d_source_file := source_file project |}.

Definition not_found : pystr := str "과제를 찾을 수 없습니다".

Definition get_project_detail (db : database) (project_id : Z)
    : response ProjectDetail :=
  match execute db {| filters := [EqId project_id];
                      order_created_desc := false;
                      limit := None |} with
  | Ret [] => HTTPException 404 (Message not_found)
  | Ret (project :: _) => OK (to_detail project)
  | Raise e => HTTPException 500 (StrOf e)
  end.

(** The [ProjectSearchResult] built from the item after [similarity]
    and [tags] are set. *)
Definition to_search_result (item : row) : ProjectSearchResult :=
  {| r_id := id item;
     r_title := title item;
     r_organization := organization item;
     r_deadline := deadline item;
     r_description := description item;
     r_tags := or_empty (tags item);
     r_similarity := (1, 1)%Z |}.

(** The loop that fills [projects], and the handler's [except]. *)
Definition respond_list (r : result (list row)) : response (list ProjectSearchResult) :=
  match r with
  | Ret items => OK (List.map to_search_result items)
  | Raise e => HTTPException 500 (StrOf e)
  end.

Definition get_recent_projects (db : database) (limit : N)
    : response (list ProjectSearchResult) :=
  respond_list (execute db {| filters := [];
                              order_created_desc := true;
                              limit := Some limit |}).

(** Truth value of an optional string parameter. *)
Definition given (p : option pystr) : option pystr :=
  match p with
  | Some ((_ :: _) as s) => Some s
  | _ => None
  end.

(** The query of [filter_projects], built clause by clause. *)
Definition filter_query (organization tag status : option pystr) (limit : N) : query :=
  let fs := [] in
  let fs := match given organization with
            | Some o => fs ++ [Ilike (str "%" ++ o ++ str "%")]
            | None => fs
            end in
  let fs := match given status with
            | Some s => fs ++ [EqStatus s]
            | None => fs
            end in
  let fs := match given tag with
            | Some t => fs ++ [ContainsTags [t]]
            | None => fs
            end in
  {| filters := fs; order_created_desc := true; limit := Some limit |}.

Definition filter_projects (db : database) (organization tag status : option pystr)
    (limit : N) : response (list ProjectSearchResult) :=
  respond_list (execute db (filter_query organization tag status limit)).

(** The counting loop of [get_stats]: [org_count[org] =
    org_count.get(org, 0) + 1] on a dict that keeps insertion order. *)
Fixpoint bump (org : pystr) (org_count : list (pystr * N)) : list (pystr * N) :=
  match org_count with
  | [] => [(org, 1)]
  | (o, n) :: rest =>
      if eqb o org then (o, n + 1) :: rest else (o, n) :: bump org rest
  end.

Definition count_orgs (items : list row) : list (pystr * N) :=
  fold_left (fun org_count item => bump (organization item) org_count) items [].

Record stats : Type := {
  total_projects : N;
  organizations : N;
  top_organizations : list (pystr * N)
}.

Definition all_rows : query :=
  {| filters := []; order_created_desc := false; limit := None |}.

Definition get_stats (db : database) : response stats :=
  match execute db all_rows with
  | Ret total =>
      match execute db all_rows with
      | Ret orgs =>
          let org_count := count_orgs orgs in
          OK {| total_projects := N.of_nat (length total);
                organizations := N.of_nat (length org_count);
                top_organizations := take 5 (sorted_desc snd org_count) |}
      | Raise e => HTTPException 500 (StrOf e)
      end
  | Raise e => HTTPException 500 (StrOf e)
  end.

End Handlers.

End Api.

(** ** nrf_crawler.py: the listing and the crawl *)

Module Listing.

(** What the HTML parser yields for a row of [table tbody tr], as far as
    [get_notice_list_with_files] looks at it: the texts of the first,
    fourth and fifth cell, the text of the [a.pc-detail] link of the
    [td.subject] cell (none when the cell or the link is missing), and
    the [data-href] attribute of each [span.single-file] of the
    [td.attached-files] cell (none when a span lacks it; no span when the
    cell is missing). *)
Record row_view : Type := {
  num_td : option pystr;
  title_link : option pystr;
  file_hrefs : list (option pystr);
  date_td : option pystr;
  view_td : option pystr
}.

Record attachment : Type := {
  name : pystr;
  url : pystr
}.

(** A notice: the dict the function builds; [title] is the one key that
    may be missing. *)
Record notice : Type := {
  number : pystr;
  title : option pystr;
  attachments : list attachment;
  date : pystr;
  views : pystr
}.

Definition base_url : pystr := Eval vm_compute in str "https://www.mss.go.kr".

Definition marker : pystr := Eval vm_compute in str "streFileNm=".

(** [s.split(marker)[-1]] when the marker occurs: what follows its last
    occurrence.  ([split] takes the occurrences from the left without
    overlap; two occurrences of this marker cannot overlap, since none of
    its proper prefixes is a suffix of it.) *)
Fixpoint after_last (s : pystr) : option pystr :=
  match s with
  | [] => None
  | _ :: s' =>
      match after_last s' with
      | Some rest => Some rest
      | None => if startswith marker s then Some (drop (length marker) s) else None
      end
  end.

(** [str(n)] *)
Definition decimal (n : nat) : pystr :=
  str (NilZero.string_of_uint (Nat.to_uint n)).

Definition absolute (file_url : pystr) : pystr :=
  if startswith (str "http") file_url then file_url else base_url ++ file_url.

Definition file_name (file_url : pystr) (index : nat) : pystr :=
  if contains marker file_url then
    match after_last file_url with
    | Some rest => rest
    | None => []
    end
  else str "file_" ++ decimal index.

(** The loop over the spans; [found] is [notice['attachments']]. *)
Fixpoint collect (hrefs : list (option pystr)) (found : list attachment)
    : list attachment :=
  match hrefs with
  | [] => found
  | Some ((_ :: _) as href) :: rest =>
      let file_url := absolute href in
      collect rest
        (found ++ [{| name := file_name file_url (length found); url := file_url |}])
  | _ :: rest => collect rest found
  end.

Definition text_or (default : pystr) (td : option pystr) : pystr :=
  match td with
  | Some text => strip text
  | None => default
  end.

Definition notice_of_row (row : row_view) : notice :=
  {| number := text_or [] (num_td row);
     title := option_map strip (title_link row);
     attachments := collect (file_hrefs row) [];
     date := text_or [] (date_td row);
     views := text_or (str "0") (view_td row) |}.

Section Parse.

(** The rows BeautifulSoup finds in the page. *)
Variable rows_of : pystr -> list row_view.

(** Nothing in the body of the loop raises on these views, so every row
    gives a notice. *)
Definition get_notice_list_with_files (html : pystr) : list notice :=
  List.map notice_of_row (rows_of html).

End Parse.

End Listing.

Module Crawl.

(** The outside world of [crawl_and_download]. *)
Record site : Type := {
  get_page : N -> option pystr;       (* [response.text], none when the request raises *)
  soup : pystr -> Crawler.page_view;
  rows_of : pystr -> list Listing.row_view;
  server : Crawler.env;
  unquote : pystr -> pystr;
  can_mkdir : pystr -> bool           (* [os.makedirs] succeeds *)
}.

(** The state: the disk and the file requests, the listing pages
    requested, and the folders made. *)
Record state : Type := {
  disk : Crawler.world;
  pages : list N;
  dirs : list pystr
}.

Inductive error : Type :=
| KeyError (key : pystr)
| OSError (path : pystr)
| Escaped (e : exc).

Inductive outcome (A : Type) : Type :=
| Done (a : A)
| Failed (err : error).
Arguments Done {A} a.
Arguments Failed {A} err.

(** Truth value of an optional number. *)
Definition given (n : option N) : option N :=
  match n with
  | Some 0 => None
  | other => other
  end.

Definition folder_exists (st : state) (folder : pystr) : bool :=
  existsb (Py.eqb folder) (dirs st) || Crawler.path_exists (disk st) folder.

(** The loop over the attachments of a notice; the results of
    [download_file] are not looked at. *)
Fixpoint download_all (s : site) (notice_folder : pystr)
    (attachments : list Listing.attachment) (w : Crawler.world) : Crawler.world :=
  match attachments with
  | [] => w
  | a :: rest =>
      download_all s notice_folder rest
        (snd (Crawler.download_file (unquote s) (server s)
                (Listing.url a) (Listing.name a) notice_folder w))
  end.

(** The body of the loop over the notices of a page.  The progress
    message reads [notice['title']] first. *)
Definition process_notice (s : site) (download_dir : pystr) (st : state)
    (notice : Listing.notice) : outcome unit * state :=
  match Listing.title notice with
  | None => (Failed (KeyError (str "title")), st)
  | Some title =>
      match Listing.attachments notice with
      | [] => (Done tt, st)
      | attachments =>
          let safe_title := slice_to 50 (Crawler.sanitize title) in
          let notice_folder :=
            path_join download_dir (Listing.number notice ++ str "_" ++ safe_title) in
          let made :=
            if folder_exists st notice_folder then Done st
            else if can_mkdir s notice_folder
                 then Done {| disk := disk st; pages := pages st;
                              dirs := dirs st ++ [notice_folder] |}
                 else Failed (OSError notice_folder) in
          match made with
          | Failed err => (Failed err, st)
          | Done st =>
              (Done tt,
               {| disk := download_all s notice_folder attachments (disk st);
                  pages := pages st; dirs := dirs st |})
          end
      end
  end.

Fixpoint process_notices (s : site) (download_dir : pystr) (st : state)
    (notices : list Listing.notice) : outcome unit * state :=
  match notices with
  | [] => (Done tt, st)
  | notice :: rest =>
      match process_notice s download_dir st notice with
      | (Done _, st) => process_notices s download_dir st rest
      | (Failed err, st) => (Failed err, st)
      end
  end.

Definition request_page (page_num : N) (st : state) : state :=
  {| disk := disk st; pages := pages st ++ [page_num]; dirs := dirs st |}.

(** The loop over the pages; [html] is the first page, fetched before. *)
Fixpoint crawl_pages (s : site) (download_dir : pystr) (max_items_per_page : option N)
    (html : pystr) (page_nums : list N) (all_notices : list Listing.notice)
    (st : state) : outcome (list Listing.notice) * state :=
  match page_nums with
  | [] => (Done all_notices, st)
  | page_num :: rest =>
      let '(page_html, st) :=
        if page_num =? 1 then (Some html, st)
        else (get_page s page_num, request_page page_num st) in
      match page_html with
      | None | Some [] =>
          crawl_pages s download_dir max_items_per_page html rest all_notices st
      | Some page_html =>
          let notices := Listing.get_notice_list_with_files (rows_of s) page_html in
          let notices :=
            match given max_items_per_page with
            | Some n => take (N.to_nat n) notices
            | None => notices
            end in
          match process_notices s download_dir st notices with
          | (Done _, st) =>
              crawl_pages s download_dir max_items_per_page html rest
                (all_notices ++ notices) st
          | (Failed err, st) => (Failed err, st)
          end
      end
  end.

(** [range(1, total_pages + 1)] *)
Definition page_range (total_pages : N) : list N :=
  List.map N.of_nat (seq 1 (N.to_nat total_pages)).

Definition crawl_and_download (s : site) (download_dir : pystr)
    (max_pages max_items_per_page : option N) (st : state)
    : outcome (list Listing.notice) * state :=
  let st := request_page 1 st in
  match get_page s 1 with
  | None | Some [] => (Done [], st)
  | Some html =>
      match Crawler.get_total_pages (soup s) html with
      | Raise e => (Failed (Escaped e), st)
      | Ret total_pages =>
          let total_pages :=
            match given max_pages with
            | Some n => N.min total_pages n
            | None => total_pages
            end in
          crawl_pages s download_dir max_items_per_page html
            (page_range total_pages) [] st
      end
  end.

End Crawl.

(** * Notions of the statements, and sample inputs *)


(** The indicator of a page: group 2 of the first match in the text of
    the [.list_info] element. *)
Definition indicator (view : Crawler.page_view) : option pystr :=
  match Crawler.list_info view with
  | Some text => Crawler.search_indicator text
  | None => None
  end.

(** The labels the loop converts, and the largest value among them and
    1. *)
Definition numeric_labels (links : list pystr) : list pystr :=
  List.filter isdigit (List.map strip links).

Definition value_of (label : pystr) : N :=
  match int label with Ret n => n | Raise _ => 0 end.

Definition max_label (links : list pystr) : N :=
  fold_right N.max 1 (List.map value_of (numeric_labels links)).

(** A page whose pagination holds the labels 1 and superscript two. *)
Definition superscript_page : Crawler.page_view :=
  {| Crawler.list_info := None;
     Crawler.pagination := [str "1"; str "²"] |}.

(** The path [download_file] tests for existence. *)
Definition requested_path (notice_folder file_url file_name : pystr) : pystr :=
  path_join notice_folder (Crawler.requested_filename file_url file_name).

(** An attachment as [get_notice_list_with_files] lists it: the name is
    what follows [streFileNm=] in the URL. *)
Definition attachment_url : pystr :=
  str "https://www.mss.go.kr/common/board/Download.do?bcIdx=1&streFileNm=abc.pdf".

(** A server that names the file in a Content-Disposition header. *)
Definition renaming_server : Crawler.env :=
  {| Crawler.respond := fun _ =>
       Some {| Crawler.content_disposition := str "attachment; filename=notice.pdf";
               Crawler.status_ok := true;
               Crawler.chunks := [str "%PDF-1.4"];
               Crawler.stream_ok := true |};
     Crawler.can_open := fun _ => true |}.

(** A server that sends no such header. *)
Definition plain_server : Crawler.env :=
  {| Crawler.respond := fun _ =>
       Some {| Crawler.content_disposition := [];
               Crawler.status_ok := true;
               Crawler.chunks := [str "%PDF-1.4"];
               Crawler.stream_ok := true |};
     Crawler.can_open := fun _ => true |}.

(** Nothing on disk, nothing requested. *)
Definition empty_world : Crawler.world :=
  {| Crawler.fs := ∅; Crawler.requests := [] |}.

(** One call for the sample attachment.  The header values of the two
    sample servers hold no percent sign, and on such a string [unquote]
    is the identity. *)
Definition fetch (e : Crawler.env) : Crawler.world -> option pystr * Crawler.world :=
  Crawler.download_file (fun s => s) e attachment_url (str "abc.pdf") (str "mss_downloads/1_notice").

(** The text of the sample announcement. *)
Definition notice_text : pystr := str "2025년 창업성장기술개발사업 시행계획 공고".

(** The outside world of the samples: every PDF has the one page
    [notice_text], the model answers [reply], the embedding endpoint and
    the database work, and the download folder holds two PDF files and
    one other file. *)
Definition sample_env (reply : json) : Ingest.env :=
  {| Ingest.read_pdf := fun _ => Some [Some notice_text];
     Ingest.chat := fun _ => Some (str "reply");
     Ingest.json_loads := fun _ => Some reply;
     Ingest.embed := fun _ => Some [1; 2; 3]%Z;
     Ingest.insert := fun data => Some [(str "id", JNum 1) :: data];
     Ingest.now := str "2025-01-01T00:00:00";
     Ingest.walk := fun _ =>
       [(str "mss_downloads/1_notice", [str "a.pdf"; str "b.PDF"; str "c.hwp"])] |}.

(** A reply in which the model, as the prompt asks it to for information
    the document lacks, gives null for the tags. *)
Definition null_tags_reply : json :=
  JObj [(str "title", JStr (str "창업성장기술개발사업"));
        (str "organization", JStr (str "중소벤처기업부"));
        (str "tags", JNull);
        (str "objectives", JArr [JStr (str "기술개발")])].

(** A reply in which it gives null for the title. *)
Definition null_title_reply : json :=
  JObj [(str "title", JNull);
        (str "organization", JStr (str "중소벤처기업부"));
        (str "tags", JArr [JStr (str "창업")])].

(** The metadata [extract_metadata] makes of that reply for [a.pdf]. *)
Definition null_tags_metadata : dict :=
  [(str "title", JStr (str "창업성장기술개발사업"));
   (str "organization", JStr (str "중소벤처기업부"));
   (str "tags", JNull);
   (str "objectives", JArr [JStr (str "기술개발")]);
   (str "source_file", JStr (str "a.pdf"))].

(** A page whose text is extracted and holds white space only. *)
Definition blank_page (page : option pystr) : bool :=
  match page with
  | Some text => forallb is_space text
  | None => false
  end.

(** A scanned document: three pages, blanks and line ends only. *)
Definition scanned_env : Ingest.env :=
  {| Ingest.read_pdf := fun _ => Some [Some (str "   "); Some []; Some [10; 12288; 9]];
     Ingest.chat := fun _ => Some (str "reply");
     Ingest.json_loads := fun _ => Some null_tags_reply;
     Ingest.embed := fun _ => Some [1; 2; 3]%Z;
     Ingest.insert := fun data => Some [(str "id", JNum 1) :: data];
     Ingest.now := str "2025-01-01T00:00:00";
     Ingest.walk := fun _ => [(str "mss_downloads", [str "scan.pdf"])] |}.

(** A table of four projects of three organizations. *)
Definition project (i : Z) (org : string) (st : string) (ts : option (list pystr))
    (at_ : N) : Api.row :=
  {| Api.id := i; Api.title := str "공고"; Api.organization := str org;
     Api.deadline := None; Api.full_deadline := None; Api.status := Some (str st);
     Api.announcement_date := None; Api.description := None; Api.tags := ts;
     Api.overview := None; Api.objectives := None; Api.eligibility_target := None;
     Api.eligibility_requirements := Some []; Api.eligibility_restrictions := None;
     Api.support_amount := None; Api.support_details := Some [str "바우처"];
     Api.source_file := None; Api.created_at := at_ |}.

Definition sample_table : list Api.row :=
  [ project 1 "중소벤처기업부" "접수중" (Some [str "창업"; str "R&D"]) 10;
    project 2 "과학기술정보통신부" "마감" None 30;
    project 3 "중소벤처기업부" "접수중" (Some [str "수출"]) 20;
    project 4 "산업통상자원부" "접수중" (Some []) 40 ].

(** An ILIKE for the samples: the pattern without its two percent signs
    occurs in the value. *)
Definition sample_ilike (pattern value : pystr) : bool :=
  contains (rev (drop 1 (rev (drop 1 pattern)))) value.


(** [a] may stand before [b] in a list sorted by [key], largest first. *)
Definition desc {A} (key : A -> N) (a b : A) : Prop := key b <= key a.

(** The number of rows of an organization, and the entry of an
    organization in the counting dict. *)
Definition occurrences (org : pystr) (rows : list Api.row) : N :=
  N.of_nat (length (List.filter (fun r => Py.eqb (Api.organization r) org) rows)).

Definition count_of (org : pystr) (org_count : list (pystr * N)) : N :=
  match List.find (fun p => Py.eqb (fst p) org) org_count with
  | Some p => snd p
  | None => 0
  end.

Definition count_step (org_count : list (pystr * N)) (item : Api.row)
    : list (pystr * N) :=
  Api.bump (Api.organization item) org_count.

(** The number of distinct organizations. *)
Definition distinct_organizations (rows : list Api.row) : nat :=
  size (list_to_set (List.map Api.organization rows) : gset pystr).

(** A page that shows its rows' count, not the indicator, above numbered
    pagination links. *)
Definition numbered_page : Crawler.page_view :=
  {| Crawler.list_info := Some (str "총 1,834건");
     Crawler.pagination := [str "처음"; str " 1 "; str "2"; str "12"; str "다음"] |}.

(** A server whose body breaks off after the first chunk. *)
Definition broken_server : Crawler.env :=
  {| Crawler.respond := fun _ =>
       Some {| Crawler.content_disposition := [];
               Crawler.status_ok := true;
               Crawler.chunks := [str "%PDF-1.4"];
               Crawler.stream_ok := false |};
     Crawler.can_open := fun _ => true |}.

(** A server that cannot be reached. *)
Definition unreachable_server : Crawler.env :=
  {| Crawler.respond := fun _ => None;
     Crawler.can_open := fun _ => true |}.

(** The calls of each kind in a trace. *)
Definition n_chat (tr : Ingest.trace) : nat :=
  length (List.filter (fun ev => match ev with Ingest.ChatCompletion _ => true | _ => false end) tr).

Definition n_embed (tr : Ingest.trace) : nat :=
  length (List.filter (fun ev => match ev with Ingest.Embedding _ => true | _ => false end) tr).

Definition n_insert (tr : Ingest.trace) : nat :=
  length (List.filter (fun ev => match ev with Ingest.Insert _ => true | _ => false end) tr).





(** The sum of the counts of a list of pairs. *)
Definition sum_counts (l : list (pystr * N)) : N :=
  fold_right (fun p acc => snd p + acc) 0 l.

(** The addresses of a row's attachments: the non-empty [data-href]
    values, made absolute. *)
Definition hrefs_given (hrefs : list (option pystr)) : list pystr :=
  flat_map (fun h => match h with
                     | Some ((_ :: _) as href) => [Listing.absolute href]
                     | _ => []
                     end) hrefs.

(** A row with three spans: a relative address with the marker, a span
    without address, and an absolute address without the marker. *)
Definition sample_row : Listing.row_view :=
  {| Listing.num_td := Some (str " 1834 ");
     Listing.title_link := Some (str "
        2025년 창업성장기술개발사업 시행계획 공고 ");
     Listing.file_hrefs :=
       [Some (str "/common/board/Download.do?bcIdx=1&streFileNm=abc.pdf");
        None;
        Some (str "https://example.org/plan")];
     Listing.date_td := Some (str "2025.01.02");
     Listing.view_td := None |}.

(** A site of twelve listing pages, each with the sample row, whose
    file server sends no file name. *)
Definition sample_site : Crawl.site :=
  {| Crawl.get_page := fun _ => Some (str "<html>");
     Crawl.soup := fun _ => numbered_page;
     Crawl.rows_of := fun _ => [sample_row];
     Crawl.server := plain_server;
     Crawl.unquote := fun s => s;
     Crawl.can_mkdir := fun _ => true |}.

(** Before the crawl. *)
Definition initial_state : Crawl.state :=
  {| Crawl.disk := empty_world; Crawl.pages := []; Crawl.dirs := [] |}.

(** The addresses of the attachments of a list of notices. *)
Definition attachment_urls (notices : list Listing.notice) : list pystr :=
  List.map Listing.url (flat_map Listing.attachments notices).

(** * Properties *)

Example str_ascii : str "a.pdf" = [97; 46; 112; 100; 102].
Proof. reflexivity. Qed.

Example str_hangul : str "과제" = [44284; 51228].
Proof. reflexivity. Qed.

(** The string functions on inputs whose results were read off
    Python. *)
Example strip_sample : strip (str "　x y 
") = str "x y".
Proof. reflexivity. Qed.

Example sanitize_sample :
  strip (Crawler.sanitize (template "  a<b>:c`/\|?*.pdf 　")) = str "a_b__c______.pdf".
Proof. reflexivity. Qed.

Example path_samples :
  path_join (str "d") [] = str "d/" /\ path_join (str "d/") (str "x") = str "d/x" /\
  path_join [] (str "x") = str "x" /\ basename (str "a/b/c.pdf") = str "c.pdf" /\
  basename (str "c.pdf") = str "c.pdf" /\ basename (str "a/") = [].
Proof. repeat split. Qed.

Example is_pdf_samples :
  Ingest.is_pdf (str "A.PDF") = true /\ Ingest.is_pdf (str "a.pdfx") = false /\
  Ingest.is_pdf (str ".PdF") = true.
Proof. repeat split. Qed.

Example sorted_desc_sample :
  sorted_desc snd [(1, 1); (2, 2); (3, 1); (4, 2)] = [(2, 2); (4, 2); (1, 1); (3, 1)].
Proof. reflexivity. Qed.

Example search_indicator_samples :
  Crawler.search_indicator (str "현재 페이지 : 1/184") = Some (str "184") /\
  Crawler.search_indicator (str "2025/01 1/184") = Some (str "01") /\
  Crawler.search_indicator (str "a/1 12/ 3/45") = Some (str "45") /\
  Crawler.search_indicator (str "no") = None /\
  Crawler.search_indicator (str "١٢/٣٤") = Some (str "٣٤") /\
  int (str "٣٤") = Ret 34.
Proof. repeat split. Qed.

Example search_filename_star_samples :
  Crawler.search_filename_star (str "attachment; filename*=UTF-8''%EA%B3%B5.pdf") =
    Some (str "%EA%B3%B5.pdf") /\
  Crawler.search_filename_star (str "attachment; filename*=UTF-8''
x") = None /\
  Crawler.search_filename_star (str "filename*=utf-8''x.pdf") = None.
Proof. repeat split. Qed.

Example search_filename_plain_samples :
  Crawler.search_filename_plain (template "attachment; filename=`a b.pdf`; size=3") =
    Some (str "a b.pdf") /\
  Crawler.search_filename_plain (str "attachment;filename=x.pdf") = Some (str "x.pdf") /\
  Crawler.search_filename_plain (template "inline; filename =`x`") = Some (str "x") /\
  Crawler.search_filename_plain (template "filename=``") = None /\
  Crawler.search_filename_plain (str "xfilename=;filename=b") = Some (str "b") /\
  Crawler.search_filename_plain (str "filename='q'x") = Some (str "q") /\
  Crawler.search_filename_plain (template "filename*0=`part`; x") = Some (str "part").
Proof. repeat split. Qed.

Example requested_filename_samples :
  Crawler.requested_filename (str "https://h/f?streFileNm=x.hwp") (str "공고문") =
    str "공고문.hwp" /\
  Crawler.requested_filename (str "https://h/f?streFileNm=x.hwpx") (str "공고문") =
    str "공고문.hwp" /\
  Crawler.requested_filename (str "https://h/f") (str " a:b.pdf ") = str "a_b.pdf" /\
  Crawler.requested_filename (str "https://h/f") (str "file_0") = str "file_0".
Proof. repeat split. Qed.

(** ** Strings *)

Lemma eqb_eq (s t : pystr) : Py.eqb s t = true <-> s = t.
Proof.
  revert t. induction s as [|a s IH]; intros [|b t]; simpl;
    try (split; [discriminate | congruence]); [tauto|].
  rewrite andb_true_iff, N.eqb_eq, IH. split.
  - intros [-> ->]. reflexivity.
  - intros [= -> ->]. auto.
Qed.

Lemma eqb_refl (s : pystr) : Py.eqb s s = true.
Proof. apply eqb_eq. reflexivity. Qed.

Lemma eqb_neq (s t : pystr) : Py.eqb s t = false <-> s <> t.
Proof.
  rewrite <- eqb_eq. destruct (Py.eqb s t); split; congruence.
Qed.


Lemma Forall_take_while {A} (P : A -> Prop) (p : A -> bool) (l : list A) :
  Forall P l -> Forall P (take_while p l).
Proof.
  induction 1 as [|x l Hx Hl IH]; simpl; [constructor|].
  destruct (p x); constructor; assumption.
Qed.


Lemma drop_while_all {A} (p : A -> bool) (l : list A) :
  forallb p l = true -> drop_while p l = [].
Proof.
  induction l as [|x l IH]; simpl; [reflexivity|].
  destruct (p x); simpl; [exact IH | discriminate].
Qed.


(** A string of white space strips to the empty string. *)
Lemma strip_spaces (s : pystr) : forallb is_space s = true -> strip s = [].
Proof.
  intros H. unfold strip, lstrip. rewrite (drop_while_all _ _ H). reflexivity.
Qed.

(** ** Crawler: file names *)








(** ** Crawler: total pages *)

Lemma is_decimal_value (c : N) :
  is_decimal c = true -> exists d, decimal_value c = Some d.
Proof.
  unfold is_decimal. destruct (decimal_value c) as [d|]; [eauto | discriminate].
Qed.

(** [int] succeeds on a non-empty string of decimal digits. *)
Lemma int_digits_decimal (s : pystr) (acc : N) :
  Forall (fun c => is_decimal c = true) s -> exists n, int_digits acc s = Ret n.
Proof.
  intros H. revert acc. induction H as [|c s Hc Hs IH]; intros acc; simpl.
  - eauto.
  - destruct (is_decimal_value c Hc) as [d ->]. apply IH.
Qed.

Lemma int_decimal (s : pystr) :
  s <> [] -> Forall (fun c => is_decimal c = true) s -> exists n, int s = Ret n.
Proof.
  intros Hs H. destruct s as [|c s]; [congruence|].
  unfold int. apply int_digits_decimal, H.
Qed.



Lemma fold_max_start (l : list N) (a n : N) :
  fold_right N.max (N.max a n) l = N.max n (fold_right N.max a l).
Proof.
  induction l as [|x l IH]; simpl; [apply N.max_comm|].
  rewrite IH. lia.
Qed.

Lemma scan_links_max (links : list pystr) (last_page : N) :
  Forall (fun label => Forall (fun c => is_decimal c = true) label)
         (numeric_labels links) ->
  Crawler.scan_links last_page links =
  Ret (fold_right N.max last_page (List.map value_of (numeric_labels links))).
Proof.
  unfold numeric_labels. revert last_page.
  induction links as [|link rest IH]; intros last_page H; simpl in *.
  - reflexivity.
  - destruct (isdigit (strip link)) eqn:E; simpl in *.
    + inversion H as [|? ? Hd Hrest]; subst.
      assert (strip link <> []) as Hne by (destruct (strip link); [discriminate E | discriminate]).
      destruct (int_decimal _ Hne Hd) as [n Hn].
      unfold value_of at 1. rewrite Hn, (IH _ Hrest). f_equal.
      apply fold_max_start.
    + apply IH, H.
Qed.


Lemma get_total_pages_links (soup : pystr -> Crawler.page_view) (html : pystr) :
  indicator (soup html) = None ->
  Forall (fun label => Forall (fun c => is_decimal c = true) label)
         (numeric_labels (Crawler.pagination (soup html))) ->
  Crawler.get_total_pages soup html = Ret (max_label (Crawler.pagination (soup html))).
Proof.
  unfold indicator, Crawler.get_total_pages, max_label. intros H Hd.
  assert (match Crawler.list_info (soup html) with
          | Some text => Crawler.search_indicator text
          | None => None
          end = None) as -> by exact H.
  destruct (Crawler.pagination (soup html)) as [|l links] eqn:E; [reflexivity|].
  apply scan_links_max, Hd.
Qed.

Lemma get_total_pages_no_marker (soup : pystr -> Crawler.page_view) (html : pystr) :
  indicator (soup html) = None ->
  Crawler.pagination (soup html) = [] ->
  Crawler.get_total_pages soup html = Ret 1.
Proof.
  intros H E. rewrite (get_total_pages_links soup html H); rewrite E; [reflexivity|].
  constructor.
Qed.


Example total_pages_indicator :
  Crawler.get_total_pages
    (fun _ => {| Crawler.list_info := Some (str "현재 페이지 : 1/184");
                 Crawler.pagination := [str "1"; str "2"] |}) [] = Ret 184.
Proof. reflexivity. Qed.

Example total_pages_links :
  Crawler.get_total_pages
    (fun _ => {| Crawler.list_info := None;
                 Crawler.pagination := [str "처음"; str " 1 "; str "12"; str "3"; str "다음"] |})
    [] = Ret 12.
Proof. reflexivity. Qed.

(** C4.  On a listing page without indicator whose pagination links are
    labelled 1 and superscript two, the label passes [isdigit], [int]
    raises on it, and [get_total_pages] lets the exception escape instead
    of returning the largest numeric label. *)
Theorem get_total_pages_superscript_raises (html : pystr) :
  isdigit (strip (str "²")) = true /\
  Crawler.get_total_pages (fun _ => superscript_page) html = Raise ValueError.
Proof. split; reflexivity. Qed.

(** ** Crawler: downloads *)

Lemma path_exists_write (path : pystr) (data : list N) (w : Crawler.world) :
  Crawler.path_exists (Crawler.write_file path data w) path = true.
Proof.
  unfold Crawler.path_exists, Crawler.write_file. simpl.
  rewrite lookup_insert_eq. reflexivity.
Qed.

Lemma download_file_existing (unquote : pystr -> pystr) (e : Crawler.env)
    (file_url file_name notice_folder : pystr) (w : Crawler.world) :
  Crawler.path_exists w (requested_path notice_folder file_url file_name) = true ->
  Crawler.download_file unquote e file_url file_name notice_folder w =
  (Some (requested_path notice_folder file_url file_name), w).
Proof.
  intros H. unfold Crawler.download_file. fold (requested_path notice_folder file_url file_name).
  rewrite H. reflexivity.
Qed.


(** A call sends at most one request, and none when the path exists. *)
Lemma download_file_requests (unquote : pystr -> pystr) (e : Crawler.env)
    (file_url file_name notice_folder : pystr) (w : Crawler.world) :
  Crawler.requests (snd (Crawler.download_file unquote e file_url file_name notice_folder w)) =
  if Crawler.path_exists w (requested_path notice_folder file_url file_name)
  then Crawler.requests w
  else Crawler.requests w ++ [file_url].
Proof.
  unfold Crawler.download_file. fold (requested_path notice_folder file_url file_name).
  destruct (Crawler.path_exists w _); [reflexivity|].
  destruct (Crawler.respond e file_url) as [resp|]; [|reflexivity].
  destruct (negb (Crawler.status_ok resp)); [reflexivity|].
  destruct (negb (Crawler.can_open e _)); [reflexivity|].
  destruct (Crawler.stream_ok resp); reflexivity.
Qed.

(** A download without a file name in the response headers stores the
    body under the requested path. *)
Lemma download_file_plain (unquote : pystr -> pystr) (e : Crawler.env)
    (file_url file_name notice_folder : pystr) (w : Crawler.world)
    (resp : Crawler.response) :
  let path := requested_path notice_folder file_url file_name in
  Crawler.path_exists w path = false ->
  Crawler.respond e file_url = Some resp ->
  Crawler.header_filename unquote (Crawler.content_disposition resp) = None ->
  Crawler.status_ok resp = true ->
  Crawler.can_open e path = true ->
  Crawler.stream_ok resp = true ->
  Crawler.download_file unquote e file_url file_name notice_folder w =
  (Some path,
   Crawler.write_file path (concat (Crawler.chunks resp)) (Crawler.send_request file_url w)).
Proof.
  intros path Hex Hr Hh Hs Ho Hk. unfold Crawler.download_file.
  fold (requested_path notice_folder file_url file_name). fold path.
  rewrite Hex, Hr, Hh, Hs. simpl. rewrite Ho, Hk. reflexivity.
Qed.




(** ** Ingestion: the calls a file gives rise to *)

Lemma slice_to_prefix (n : N) (s : pystr) :
  slice_to n s ++ drop (N.to_nat n) s = s /\
  length (slice_to n s) = Nat.min (N.to_nat n) (length s).
Proof.
  unfold slice_to. split; [apply take_drop | apply length_take].
Qed.

Lemma extract_metadata_trace (e : Ingest.env) (pdf_text pdf_filename : pystr)
    (tr : Ingest.trace) :
  snd (Ingest.extract_metadata e pdf_text pdf_filename tr) =
  tr ++ [Ingest.ChatCompletion (Ingest.prompt_of pdf_text)].
Proof.
  unfold Ingest.extract_metadata.
  destruct (Ingest.chat e _) as [content|]; [|reflexivity].
  destruct (Ingest.json_loads e content) as [[]|]; reflexivity.
Qed.

Lemma store_to_supabase_trace (e : Ingest.env) (text : pystr) (metadata : dict)
    (embedding : list Z) (tr : Ingest.trace) :
  snd (Ingest.store_to_supabase e text metadata embedding tr) =
  tr ++ [Ingest.Insert (Ingest.record_of e text metadata embedding)].
Proof.
  unfold Ingest.store_to_supabase.
  destruct (Ingest.insert e _) as [[|row rows]|]; reflexivity.
Qed.

(** The entries of the record sent to the database that hold the
    multi-valued fields: the metadata's value under the key when the key
    is there, whatever the value, and the empty list when it is not. *)
Lemma record_of_multi_valued (e : Ingest.env) (text : pystr) (metadata : dict)
    (embedding : list Z) :
  let data := Ingest.record_of e text metadata embedding in
  let field k := dict_get_default metadata (str k) (JArr []) in
  dict_lookup (str "tags") data = Some (field "tags"%string) /\
  dict_lookup (str "objectives") data = Some (field "objectives"%string) /\
  dict_lookup (str "eligibility_requirements") data =
    Some (field "eligibility_requirements"%string) /\
  dict_lookup (str "eligibility_restrictions") data =
    Some (field "eligibility_restrictions"%string) /\
  dict_lookup (str "support_details") data = Some (field "support_details"%string).
Proof. repeat split. Qed.

Lemma dict_get_default_absent (d : dict) (k : pystr) (default : json) :
  dict_lookup k d = None -> dict_get_default d k default = default.
Proof. unfold dict_get_default. intros ->. reflexivity. Qed.

Lemma dict_get_default_present (d : dict) (k : pystr) (default v : json) :
  dict_lookup k d = Some v -> dict_get_default d k default = v.
Proof. unfold dict_get_default. intros ->. reflexivity. Qed.




(** ** Ingestion: failures of a file *)

Lemma dict_set_nonempty (k : pystr) (v : json) (d : dict) : dict_set k v d <> [].
Proof.
  destruct d as [|[k' v'] d]; simpl; [discriminate|].
  destruct (Py.eqb k' k); discriminate.
Qed.

(** The metadata [extract_metadata] returns holds [source_file], so it is
    never the empty dict. *)
Lemma extract_metadata_nonempty (e : Ingest.env) (pdf_text pdf_filename : pystr)
    (tr : Ingest.trace) (metadata : dict) :
  fst (Ingest.extract_metadata e pdf_text pdf_filename tr) = Some metadata ->
  metadata <> [].
Proof.
  unfold Ingest.extract_metadata.
  destruct (Ingest.chat e _) as [content|]; [|discriminate].
  destruct (Ingest.json_loads e content) as [[]|]; try discriminate.
  simpl. intros [= <-]. apply dict_set_nonempty.
Qed.

(** Text extraction failed, or gave the empty string. *)
Lemma process_pdf_file_no_text (e : Ingest.env) (pdf_path : pystr) (tr : Ingest.trace) :
  Ingest.extract_text_from_pdf e pdf_path = None \/
  Ingest.extract_text_from_pdf e pdf_path = Some [] ->
  Ingest.process_pdf_file e pdf_path tr = (Ret None, tr).
Proof.
  unfold Ingest.process_pdf_file. intros [-> | ->]; reflexivity.
Qed.

(** Metadata extraction failed: one call to the model, nothing else. *)
Lemma process_pdf_file_no_metadata (e : Ingest.env) (pdf_path text : pystr)
    (tr : Ingest.trace) :
  Ingest.extract_text_from_pdf e pdf_path = Some text ->
  text <> [] ->
  fst (Ingest.extract_metadata e text (basename pdf_path) tr) = None ->
  Ingest.process_pdf_file e pdf_path tr =
  (Ret None, tr ++ [Ingest.ChatCompletion (Ingest.prompt_of text)]).
Proof.
  intros Ht Hne Hm. unfold Ingest.process_pdf_file. rewrite Ht.
  destruct text as [|c text]; [congruence|].
  pose proof (extract_metadata_trace e (c :: text) (basename pdf_path) tr) as Htr.
  destruct (Ingest.extract_metadata e (c :: text) (basename pdf_path) tr) as [m tr1].
  simpl in Hm, Htr. subst. reflexivity.
Qed.

(** The embedding request failed, or gave an empty vector: the model and
    the embedding endpoint were called, the database was not. *)
Lemma process_pdf_file_no_embedding (e : Ingest.env) (pdf_path text : pystr)
    (metadata : dict) (tr : Ingest.trace) :
  Ingest.extract_text_from_pdf e pdf_path = Some text ->
  text <> [] ->
  fst (Ingest.extract_metadata e text (basename pdf_path) tr) = Some metadata ->
  Ingest.title_preview metadata = Ret tt ->
  Ingest.embed e (slice_to Ingest.EMBEDDING_CHARS text) = None \/
  Ingest.embed e (slice_to Ingest.EMBEDDING_CHARS text) = Some [] ->
  Ingest.process_pdf_file e pdf_path tr =
  (Ret None, tr ++ [Ingest.ChatCompletion (Ingest.prompt_of text);
                    Ingest.Embedding (slice_to Ingest.EMBEDDING_CHARS text)]).
Proof.
  intros Ht Hne Hm Hp He. unfold Ingest.process_pdf_file. rewrite Ht.
  destruct text as [|c text]; [congruence|].
  pose proof (extract_metadata_trace e (c :: text) (basename pdf_path) tr) as Htr.
  pose proof (extract_metadata_nonempty e (c :: text) (basename pdf_path) tr _ Hm) as Hmd.
  destruct (Ingest.extract_metadata e (c :: text) (basename pdf_path) tr) as [m tr1].
  simpl in Hm, Htr. subst.
  destruct metadata as [|kv metadata]; [congruence|].
  rewrite Hp. unfold Ingest.create_embedding.
  rewrite <- app_assoc. simpl.
  destruct He as [-> | ->]; reflexivity.
Qed.

(** A file that yields no record leaves the count as it is, and the loop
    goes on with the next file. *)
Lemma process_files_failure (e : Ingest.env) (pdf_path : pystr) (rest : list pystr)
    (success_count : N) (tr tr' : Ingest.trace) :
  Ingest.process_pdf_file e pdf_path tr = (Ret None, tr') ->
  Ingest.process_files e (pdf_path :: rest) success_count tr =
  Ingest.process_files e rest success_count tr'.
Proof. intros H. simpl. rewrite H. reflexivity. Qed.

Lemma process_files_success (e : Ingest.env) (pdf_path : pystr) (rest : list pystr)
    (success_count : N) (tr tr' : Ingest.trace) (row : dict) :
  Ingest.process_pdf_file e pdf_path tr = (Ret (Some row), tr') ->
  Ingest.process_files e (pdf_path :: rest) success_count tr =
  Ingest.process_files e rest (success_count + 1) tr'.
Proof. intros H. simpl. rewrite H. reflexivity. Qed.

(** An exception in one file ends the loop. *)
Lemma process_files_raise (e : Ingest.env) (pdf_path : pystr) (rest : list pystr)
    (success_count : N) (tr tr' : Ingest.trace) (ex : exc) :
  Ingest.process_pdf_file e pdf_path tr = (Raise ex, tr') ->
  Ingest.process_files e (pdf_path :: rest) success_count tr = (Raise ex, tr').
Proof. intros H. simpl. rewrite H. reflexivity. Qed.


(** *** A sample run *)

Example find_pdf_files_sample :
  Ingest.find_pdf_files (sample_env null_tags_reply) (str "mss_downloads") =
  [str "mss_downloads/1_notice/a.pdf"; str "mss_downloads/1_notice/b.PDF"].
Proof. reflexivity. Qed.

Example process_directory_sample :
  fst (Ingest.process_directory (sample_env null_tags_reply) (str "mss_downloads") []) =
  Ret 2.
Proof. vm_compute. reflexivity. Qed.

(** C1.  When the metadata holds an explicit null under [tags],
    [store_to_supabase] sends a record whose [tags] is null: the default
    of [get] applies to a missing key only.  So does the whole pipeline
    on a file for which the model replies with null tags; the record is
    accepted and the file counts as stored. *)
Theorem store_to_supabase_null_tags (e : Ingest.env) (text : pystr)
    (embedding : list Z) (tr : Ingest.trace) :
  dict_lookup (str "tags") null_tags_metadata = Some JNull /\
  snd (Ingest.store_to_supabase e text null_tags_metadata embedding tr) =
    tr ++ [Ingest.Insert (Ingest.record_of e text null_tags_metadata embedding)] /\
  dict_lookup (str "tags") (Ingest.record_of e text null_tags_metadata embedding) =
    Some JNull /\
  dict_lookup (str "support_details")
    (Ingest.record_of e text null_tags_metadata embedding) = Some (JArr []) /\
  let data :=
    Ingest.record_of (sample_env null_tags_reply) notice_text null_tags_metadata
      [1; 2; 3]%Z in
  Ingest.process_pdf_file (sample_env null_tags_reply)
    (str "mss_downloads/1_notice/a.pdf") [] =
  (Ret (Some ((str "id", JNum 1) :: data)),
   [Ingest.ChatCompletion (Ingest.prompt_of notice_text);
    Ingest.Embedding notice_text;
    Ingest.Insert data]).
Proof.
  split; [reflexivity|].
  split; [apply store_to_supabase_trace|].
  split; [reflexivity|].
  split; [reflexivity|].
  vm_compute. reflexivity.
Qed.

(** C3.  On a file for which the model replies with a null title, the
    progress message raises; nothing catches the exception, and
    [process_directory] ends with it after the first of the two files:
    the second is never read, and no count is returned. *)
Theorem process_directory_null_title_aborts :
  Ingest.title_preview
    (dict_set (str "source_file") (JStr (str "a.pdf"))
       [(str "title", JNull)]) = Raise TypeError /\
  Ingest.process_pdf_file (sample_env null_title_reply)
    (str "mss_downloads/1_notice/a.pdf") [] =
  (Raise TypeError, [Ingest.ChatCompletion (Ingest.prompt_of notice_text)]) /\
  Ingest.process_directory (sample_env null_title_reply) (str "mss_downloads") [] =
  (Raise TypeError, [Ingest.ChatCompletion (Ingest.prompt_of notice_text)]).
Proof. vm_compute. repeat split. Qed.

(** ** Ingestion: pages without text *)

Lemma join_pages_blank (pages : list (option pystr)) (text : pystr) :
  forallb is_space text = true ->
  forallb blank_page pages = true ->
  exists joined,
    Ingest.join_pages text pages = Some joined /\ forallb is_space joined = true.
Proof.
  revert text. induction pages as [|[page|] pages IH]; intros text Ht Hp; simpl in *.
  - eauto.
  - apply andb_true_iff in Hp as [Hpage Hp]. apply IH; [|exact Hp].
    rewrite !forallb_app, Ht, Hpage. reflexivity.
  - discriminate.
Qed.

(** C9.  If the file opens and every page yields white space only (or
    nothing), the extracted text is the empty string, [process_pdf_file]
    returns no record and calls neither the model, nor the embedding
    endpoint, nor the database, exactly as when the file cannot be read,
    and the loop goes on with the success count unchanged. *)
Theorem blank_pdf_is_a_failure (e : Ingest.env) (pdf_path : pystr)
    (pages : list (option pystr)) (tr : Ingest.trace) :
  Ingest.read_pdf e pdf_path = Some pages ->
  forallb blank_page pages = true ->
  Ingest.extract_text_from_pdf e pdf_path = Some [] /\
  Ingest.process_pdf_file e pdf_path tr = (Ret None, tr) /\
  (forall e', Ingest.read_pdf e' pdf_path = None ->
     Ingest.process_pdf_file e' pdf_path tr = Ingest.process_pdf_file e pdf_path tr) /\
  (forall rest success_count,
     Ingest.process_files e (pdf_path :: rest) success_count tr =
     Ingest.process_files e rest success_count tr).
Proof.
  intros Hr Hp.
  assert (Ingest.extract_text_from_pdf e pdf_path = Some []) as Ht.
  { unfold Ingest.extract_text_from_pdf. rewrite Hr.
    destruct (join_pages_blank pages [] eq_refl Hp) as (joined & -> & Hj).
    rewrite (strip_spaces _ Hj). reflexivity. }
  assert (Ingest.process_pdf_file e pdf_path tr = (Ret None, tr)) as Hf
    by (apply process_pdf_file_no_text; auto).
  split; [exact Ht|]. split; [exact Hf|]. split.
  - intros e' Hr'. rewrite Hf. apply process_pdf_file_no_text. left.
    unfold Ingest.extract_text_from_pdf. rewrite Hr'. reflexivity.
  - intros rest n. apply process_files_failure, Hf.
Qed.

(** The sample run of C9. *)
Lemma blank_pdf_is_a_failure_witness :
  Ingest.extract_text_from_pdf scanned_env (str "mss_downloads/scan.pdf") = Some [] /\
  Ingest.process_pdf_file scanned_env (str "mss_downloads/scan.pdf") [] = (Ret None, []) /\
  Ingest.process_directory scanned_env (str "mss_downloads") [] = (Ret 0, []).
Proof.
  destruct (blank_pdf_is_a_failure scanned_env (str "mss_downloads/scan.pdf")
              [Some (str "   "); Some []; Some [10; 12288; 9]] [] eq_refl eq_refl)
    as (H1 & H2 & _ & H4).
  split; [exact H1|]. split; [exact H2|].
  exact (H4 [] 0).
Defined.

(** ** API: sample table *)

Example or_empty_samples :
  Api.or_empty None = [] /\ Api.or_empty (Some []) = [] /\
  Api.or_empty (Some [str "a"; str "b"]) = [str "a"; str "b"].
Proof. repeat split. Qed.

Example given_samples :
  Api.given None = None /\ Api.given (Some []) = None /\
  Api.given (Some (str "x")) = Some (str "x").
Proof. repeat split. Qed.

Example recent_sample :
  match Api.get_recent_projects sample_ilike (Api.Up sample_table) 3 with
  | Api.OK ps => List.map Api.r_id ps = [4; 2; 3]%Z
  | _ => False
  end.
Proof. vm_compute. reflexivity. Qed.

Example filter_sample :
  match Api.filter_projects sample_ilike (Api.Up sample_table)
          (Some (str "중소")) (Some (str "창업")) (Some (str "접수중")) 20 with
  | Api.OK ps => List.map Api.r_id ps = [1]%Z
  | _ => False
  end.
Proof. vm_compute. reflexivity. Qed.

Example stats_sample :
  Api.get_stats sample_ilike (Api.Up sample_table) =
  Api.OK {| Api.total_projects := 4;
            Api.organizations := 3;
            Api.top_organizations :=
              [(str "중소벤처기업부", 2); (str "과학기술정보통신부", 1);
               (str "산업통상자원부", 1)] |}.
Proof. vm_compute. reflexivity. Qed.

(** ** API: detail lookup *)





Example detail_samples :
  Api.get_project_detail sample_ilike (Api.Up sample_table) 999999 =
    Api.HTTPException 404 (Api.Message Api.not_found) /\
  Api.get_project_detail sample_ilike (Api.Up []) 999999 =
    Api.HTTPException 404 (Api.Message Api.not_found) /\
  match Api.get_project_detail sample_ilike (Api.Up sample_table) 2 with
  | Api.OK d =>
      Api.d_id d = 2%Z /\ Api.d_organization d = str "과학기술정보통신부" /\
      Api.d_tags d = [] /\ Api.d_support_details d = [str "바우처"]
  | _ => False
  end.
Proof. vm_compute. repeat split. Qed.

(** ** API: listings *)

(** Every record of a listing carries the tags of its row, null turned
    into the empty list, and the similarity 1.0. *)
Lemma respond_list_records (items : list Api.row) :
  Api.respond_list (Ret items) = Api.OK (List.map Api.to_search_result items) /\
  Forall (fun r => Api.r_tags (Api.to_search_result r) = Api.or_empty (Api.tags r) /\
                   Api.r_similarity (Api.to_search_result r) = (1, 1)%Z) items.
Proof.
  split; [reflexivity|]. apply List.Forall_forall. intros r _. split; reflexivity.
Qed.

(** C10.  An empty string for [organization], [tag] or [status] builds
    the same query, and so gives the same response, as leaving the
    parameter out, whatever the other parameters and the database.  The
    query holds no clause on an attribute whose parameter is empty or left
    out; with all three so, the response lists the first [limit] rows by
    creation time, latest first. *)
Theorem filter_projects_empty_is_unset (ilike : pystr -> pystr -> bool)
    (db : Api.database) (rows : list Api.row)
    (organization tag status : option pystr) (limit : N) :
  (Api.filter_query (Some []) tag status limit =
     Api.filter_query None tag status limit /\
   Api.filter_query organization (Some []) status limit =
     Api.filter_query organization None status limit /\
   Api.filter_query organization tag (Some []) limit =
     Api.filter_query organization tag None limit) /\
  (Api.filter_projects ilike db (Some []) tag status limit =
     Api.filter_projects ilike db None tag status limit /\
   Api.filter_projects ilike db organization (Some []) status limit =
     Api.filter_projects ilike db organization None status limit /\
   Api.filter_projects ilike db organization tag (Some []) limit =
     Api.filter_projects ilike db organization tag None limit) /\
  (forallb (fun f => match f with Api.Ilike _ => false | _ => true end)
     (Api.filters (Api.filter_query (Some []) tag status limit)) = true /\
   forallb (fun f => match f with Api.ContainsTags _ => false | _ => true end)
     (Api.filters (Api.filter_query organization (Some []) status limit)) = true /\
   forallb (fun f => match f with Api.EqStatus _ => false | _ => true end)
     (Api.filters (Api.filter_query organization tag (Some []) limit)) = true) /\
  Api.filter_projects ilike (Api.Up rows) (Some []) (Some []) (Some []) limit =
    Api.OK (List.map Api.to_search_result
              (take (N.to_nat limit) (sorted_desc Api.created_at rows))).
Proof.
  split; [repeat split|].
  split; [repeat split|].
  split.
  - unfold Api.filter_query.
    destruct (Api.given organization), (Api.given tag), (Api.given status);
      repeat split.
  - unfold Api.filter_projects, Api.filter_query, Api.execute, Api.run. simpl.
    replace (List.filter (fun _ : Api.row => true) rows) with rows; [reflexivity|].
    induction rows as [|r rows IH]; simpl; congruence.
Qed.

(** ** API: statistics *)

Lemma In_take {A} (x : A) (n : nat) (l : list A) : In x (take n l) -> In x l.
Proof.
  intros H. rewrite <- (take_drop n l). apply in_or_app. left. exact H.
Qed.

Lemma In_drop {A} (x : A) (n : nat) (l : list A) : In x (drop n l) -> In x l.
Proof.
  intros H. rewrite <- (take_drop n l). apply in_or_app. right. exact H.
Qed.

Section SortedDesc.

Context {A : Type} (key : A -> N).

Lemma insert_desc_perm (x : A) (l : list A) :
  Permutation (insert_desc key x l) (x :: l).
Proof.
  induction l as [|y l IH]; simpl; [reflexivity|].
  destruct (key y <=? key x); [reflexivity|].
  rewrite IH. apply perm_swap.
Qed.

Lemma sorted_desc_perm (l : list A) : Permutation (sorted_desc key l) l.
Proof.
  induction l as [|x l IH]; simpl; [reflexivity|].
  rewrite insert_desc_perm, IH. reflexivity.
Qed.

Lemma insert_desc_sorted (x : A) (l : list A) :
  StronglySorted (desc key) l -> StronglySorted (desc key) (insert_desc key x l).
Proof.
  induction 1 as [|y l Hs IH Hy]; simpl.
  - constructor; constructor.
  - destruct (N.leb_spec (key y) (key x)) as [Hle|Hlt].
    + constructor; [constructor; assumption|].
      constructor; [exact Hle|].
      eapply List.Forall_impl; [|exact Hy]. unfold desc. intros z Hz. lia.
    + constructor; [exact IH|].
      apply (Permutation_Forall (Permutation_sym (insert_desc_perm x l))).
      constructor; [unfold desc; lia | exact Hy].
Qed.

Lemma sorted_desc_sorted (l : list A) : StronglySorted (desc key) (sorted_desc key l).
Proof.
  induction l as [|x l IH]; simpl; [constructor|].
  apply insert_desc_sorted, IH.
Qed.

Lemma StronglySorted_take (l : list A) (n : nat) :
  StronglySorted (desc key) l -> StronglySorted (desc key) (take n l).
Proof.
  intros H. revert n. induction H as [|x l Hs IH Hx]; intros [|n]; simpl;
    try constructor.
  - apply IH.
  - apply List.Forall_forall. intros y Hy.
    rewrite List.Forall_forall in Hx. eapply Hx, In_take, Hy.
Qed.

(** In a sorted list, what is taken stands before what is dropped. *)
Lemma StronglySorted_take_drop (l : list A) (n : nat) (x y : A) :
  StronglySorted (desc key) l -> In x (take n l) -> In y (drop n l) -> desc key x y.
Proof.
  intros H. revert n. induction H as [|z l Hs IH Hz]; intros [|n]; simpl;
    try contradiction.
  intros [<- | Hx] Hy.
  - rewrite List.Forall_forall in Hz. eapply Hz, In_drop, Hy.
  - eapply IH; eassumption.
Qed.

End SortedDesc.

Lemma bump_count_of (org o : pystr) (d : list (pystr * N)) :
  count_of o (Api.bump org d) = count_of o d + (if Py.eqb org o then 1 else 0).
Proof.
  unfold count_of. induction d as [|[k n] d IH]; simpl.
  - destruct (Py.eqb org o); reflexivity.
  - destruct (Py.eqb k org) eqn:Ek; simpl.
    + apply eqb_eq in Ek. subst k. destruct (Py.eqb org o); simpl; lia.
    + destruct (Py.eqb k o) eqn:Eo; [|exact IH].
      apply eqb_eq in Eo. subst k. destruct (Py.eqb org o) eqn:E2; simpl; [|lia].
      apply eqb_eq in E2. subst org. rewrite eqb_refl in Ek. discriminate.
Qed.

Lemma bump_keys (org k : pystr) (d : list (pystr * N)) :
  In k (List.map fst (Api.bump org d)) <-> k = org \/ In k (List.map fst d).
Proof.
  induction d as [|[k' n] d IH]; simpl.
  - intuition.
  - destruct (Py.eqb k' org) eqn:E; simpl.
    + apply eqb_eq in E. subst. intuition.
    + rewrite IH. intuition.
Qed.

Lemma bump_NoDup (org : pystr) (d : list (pystr * N)) :
  List.NoDup (List.map fst d) -> List.NoDup (List.map fst (Api.bump org d)).
Proof.
  induction d as [|[k n] d IH]; simpl; intros H.
  - constructor; [intros [] | constructor].
  - inversion H as [|? ? Hk Hd]; subst.
    destruct (Py.eqb k org) eqn:E; simpl.
    + constructor; assumption.
    + constructor; [|apply IH, Hd].
      rewrite bump_keys. intros [-> | Hin]; [|contradiction].
      rewrite eqb_refl in E. discriminate.
Qed.

Lemma bump_positive (org : pystr) (d : list (pystr * N)) :
  Forall (fun p => 1 <= snd p) d -> Forall (fun p => 1 <= snd p) (Api.bump org d).
Proof.
  induction 1 as [|[k n] d Hn Hd IH]; simpl.
  - constructor; [simpl; lia | constructor].
  - destruct (Py.eqb k org); constructor; simpl in *; try assumption; lia.
Qed.

Lemma count_of_entry (k : pystr) (n : N) (d : list (pystr * N)) :
  List.NoDup (List.map fst d) -> In (k, n) d -> count_of k d = n.
Proof.
  unfold count_of. induction d as [|[k' n'] d IH]; simpl; intros Hd Hin; [contradiction|].
  inversion Hd as [|? ? Hk Hd']; subst.
  destruct Hin as [[= -> ->] | Hin].
  - rewrite eqb_refl. reflexivity.
  - destruct (Py.eqb k' k) eqn:E; [|apply IH; assumption].
    apply eqb_eq in E. subst k'. exfalso. apply Hk.
    apply in_map_iff. exists (k, n). auto.
Qed.

(** [count_orgs] as the fold of [count_step]. *)
Ltac counting := unfold Api.count_orgs; fold count_step.

Lemma fold_count_of (o : pystr) (rows : list Api.row) (d : list (pystr * N)) :
  count_of o (fold_left count_step rows d) = count_of o d + occurrences o rows.
Proof.
  unfold occurrences. revert d. induction rows as [|r rows IH]; intros d; simpl.
  - lia.
  - rewrite IH. unfold count_step. rewrite bump_count_of.
    destruct (Py.eqb (Api.organization r) o); simpl length; lia.
Qed.

Lemma fold_keys (k : pystr) (rows : list Api.row) (d : list (pystr * N)) :
  In k (List.map fst (fold_left count_step rows d)) <->
  In k (List.map fst d) \/ In k (List.map Api.organization rows).
Proof.
  revert d. induction rows as [|r rows IH]; intros d; simpl.
  - intuition.
  - rewrite IH. unfold count_step. rewrite bump_keys. intuition.
Qed.

Lemma fold_NoDup (rows : list Api.row) (d : list (pystr * N)) :
  List.NoDup (List.map fst d) ->
  List.NoDup (List.map fst (fold_left count_step rows d)).
Proof.
  revert d. induction rows as [|r rows IH]; intros d H; simpl; [exact H|].
  apply IH, bump_NoDup, H.
Qed.

Lemma fold_positive (rows : list Api.row) (d : list (pystr * N)) :
  Forall (fun p => 1 <= snd p) d ->
  Forall (fun p => 1 <= snd p) (fold_left count_step rows d).
Proof.
  revert d. induction rows as [|r rows IH]; intros d H; simpl; [exact H|].
  apply IH, bump_positive, H.
Qed.

(** The counting dict holds one entry for each organization of the
    table, with the number of its rows. *)
Lemma count_orgs_entry (rows : list Api.row) (org : pystr) (n : N) :
  In (org, n) (Api.count_orgs rows) ->
  n = occurrences org rows /\ In org (List.map Api.organization rows).
Proof.
  counting. intros H. split.
  - rewrite <- (count_of_entry org n _ (fold_NoDup rows [] (List.NoDup_nil _)) H).
    rewrite fold_count_of. reflexivity.
  - assert (In org (List.map fst (fold_left count_step rows []))) as Hk
      by (apply in_map_iff; exists (org, n); auto).
    apply fold_keys in Hk as [[] | Hk]. exact Hk.
Qed.

Lemma count_orgs_complete (rows : list Api.row) (org : pystr) :
  In org (List.map Api.organization rows) ->
  In (org, occurrences org rows) (Api.count_orgs rows).
Proof.
  intros H.
  assert (In org (List.map fst (Api.count_orgs rows))) as Hk
    by (counting; apply fold_keys; auto).
  apply in_map_iff in Hk as ([k n] & E & Hin). simpl in E. subst k.
  destruct (count_orgs_entry rows org n Hin) as [-> _]. exact Hin.
Qed.

Lemma count_orgs_length (rows : list Api.row) :
  length (Api.count_orgs rows) = distinct_organizations rows.
Proof.
  unfold distinct_organizations.
  rewrite <- (length_map fst (Api.count_orgs rows)).
  rewrite <- (size_list_to_set (C := gset pystr) (List.map fst (Api.count_orgs rows))).
  - f_equal. apply set_eq. intros k. rewrite !elem_of_list_to_set, !list_elem_of_In.
    counting. rewrite fold_keys. simpl. intuition.
  - apply NoDup_ListNoDup.
    counting. apply fold_NoDup. constructor.
Qed.

Lemma NoDup_take {A} (n : nat) (l : list A) : List.NoDup l -> List.NoDup (take n l).
Proof.
  intros H. rewrite <- (take_drop n l) in H. eapply NoDup_app_remove_r, H.
Qed.

(** C8.  With the database answering, the statistics hold the number of
    rows, the number of distinct organizations, and as top organizations
    at most five pairs of an organization of the table and the number of
    its rows, no organization twice, the larger counts first; an
    organization that is left out has no more rows than any that is
    listed. *)
Theorem get_stats_counts (ilike : pystr -> pystr -> bool) (rows : list Api.row) :
  let top := take 5 (sorted_desc snd (Api.count_orgs rows)) in
  Api.get_stats ilike (Api.Up rows) =
    Api.OK {| Api.total_projects := N.of_nat (length rows);
              Api.organizations := N.of_nat (distinct_organizations rows);
              Api.top_organizations := top |} /\
  length top = Nat.min 5 (distinct_organizations rows) /\
  StronglySorted (desc snd) top /\
  Forall (fun p => snd p = occurrences (fst p) rows /\ 1 <= snd p /\
                   In (fst p) (List.map Api.organization rows)) top /\
  List.NoDup (List.map fst top) /\
  Forall (fun r => In (Api.organization r) (List.map fst top) \/
                   Forall (fun p => occurrences (Api.organization r) rows <= snd p) top)
         rows.
Proof.
  intros top.
  pose proof (sorted_desc_perm snd (Api.count_orgs rows)) as Hperm.
  pose proof (sorted_desc_sorted snd (Api.count_orgs rows)) as Hsorted.
  assert (forall p, In p top -> In p (Api.count_orgs rows)) as Hin.
  { intros p Hp. eapply Permutation_in; [exact Hperm|]. eapply In_take, Hp. }
  split.
  { unfold Api.get_stats, Api.execute, Api.run. simpl.
    replace (List.filter (fun _ : Api.row => true) rows) with rows
      by (clear; induction rows as [|r rows IH]; simpl; congruence).
    rewrite count_orgs_length. reflexivity. }
  split.
  { unfold top. rewrite length_take, (Permutation_length Hperm), count_orgs_length.
    reflexivity. }
  split; [apply StronglySorted_take, Hsorted|].
  split.
  { apply List.Forall_forall. intros [org n] Hp. simpl.
    pose proof (Hin _ Hp) as Hc.
    destruct (count_orgs_entry rows org n Hc) as [Hn Ho].
    split; [exact Hn|]. split; [|exact Ho].
    assert (Forall (fun p => 1 <= snd p) (Api.count_orgs rows)) as Hpos
      by (counting; apply fold_positive; constructor).
    rewrite List.Forall_forall in Hpos. apply (Hpos _ Hc). }
  split.
  { unfold top. rewrite <- firstn_map. apply NoDup_take.
    eapply Permutation_NoDup.
    - apply Permutation_map, Permutation_sym, Hperm.
    - counting. apply fold_NoDup. constructor. }
  apply List.Forall_forall. intros r Hr.
  assert (In (Api.organization r, occurrences (Api.organization r) rows)
             (sorted_desc snd (Api.count_orgs rows))) as Hs.
  { eapply Permutation_in; [apply Permutation_sym, Hperm|].
    apply count_orgs_complete, in_map, Hr. }
  rewrite <- (take_drop 5 (sorted_desc snd (Api.count_orgs rows))) in Hs.
  apply in_app_or in Hs as [Ht | Hd].
  - left. apply in_map_iff. eexists. split; [|exact Ht]. reflexivity.
  - right. apply List.Forall_forall. intros p Hp.
    exact (StronglySorted_take_drop snd _ 5 p _ Hsorted Hp Hd).
Qed.

(** * Further properties *)

(** ** Crawler *)



Lemma startswith_app (p q s : pystr) :
  startswith (p ++ q) s = true -> startswith p s = true.
Proof.
  revert s. induction p as [|a p IH]; intros [|b s]; simpl; try reflexivity; try discriminate.
  rewrite !andb_true_iff. intros [E H]. split; [exact E | apply IH, H].
Qed.

Lemma contains_app (p q s : pystr) :
  contains (p ++ q) s = true -> contains p s = true.
Proof.
  induction s as [|c s IH]; simpl.
  - rewrite !orb_false_r. apply startswith_app.
  - rewrite !orb_true_iff. intros [H | H].
    + left. eapply startswith_app, H.
    + right. apply IH, H.
Qed.

(** X2.  The extension guessed from a URL is never [.hwpx]: a URL that
    holds [.hwpx] holds [.hwp], which the chain tests first. *)
Theorem guess_ext_hwpx_is_hwp (file_url : pystr) :
  Py.eqb (Crawler.guess_ext file_url) (str ".hwpx") = false /\
  (contains (str ".hwpx") file_url = true -> Crawler.guess_ext file_url = str ".hwp").
Proof.
  split.
  - unfold Crawler.guess_ext.
    destruct (contains (str ".hwp") file_url) eqn:E; [reflexivity|].
    destruct (contains (str ".hwpx") file_url) eqn:Ex.
    + change (str ".hwpx") with (str ".hwp" ++ str "x") in Ex.
      rewrite (contains_app _ _ _ Ex) in E. discriminate.
    + repeat match goal with |- context [if ?b then _ else _] => destruct b end;
        reflexivity.
  - intros H. unfold Crawler.guess_ext.
    change (str ".hwpx") with (str ".hwp" ++ str "x") in H.
    rewrite (contains_app _ _ _ H). reflexivity.
Qed.

(** The sample run of X2. *)
Lemma guess_ext_hwpx_is_hwp_witness :
  Crawler.guess_ext (str "https://www.mss.go.kr/f?streFileNm=plan.hwpx") = str ".hwp".
Proof.
  exact (proj2 (guess_ext_hwpx_is_hwp (str "https://www.mss.go.kr/f?streFileNm=plan.hwpx"))
               eq_refl).
Defined.




(** X4.  A call that returns no path has sent exactly one request, and
    has left the disk as it was unless the body broke off while it was
    being written, in which case the one file it opened holds the chunks
    received so far. *)
Theorem download_file_failure (unquote : pystr -> pystr) (e : Crawler.env)
    (file_url file_name notice_folder : pystr) (w w1 : Crawler.world) :
  Crawler.download_file unquote e file_url file_name notice_folder w = (None, w1) ->
  Crawler.requests w1 = Crawler.requests w ++ [file_url] /\
  (Crawler.fs w1 = Crawler.fs w \/
   exists resp path,
     Crawler.respond e file_url = Some resp /\
     Crawler.status_ok resp = true /\ Crawler.stream_ok resp = false /\
     Crawler.fs w1 = <[path := concat (Crawler.chunks resp)]> (Crawler.fs w)).
Proof.
  unfold Crawler.download_file.
  destruct (Crawler.path_exists w _); [discriminate|].
  destruct (Crawler.respond e file_url) as [resp|].
  - destruct (Crawler.status_ok resp) eqn:Hs; simpl.
    + destruct (Crawler.can_open e _); simpl.
      * destruct (Crawler.stream_ok resp) eqn:Hk; [discriminate|].
        intros [= <-]. split; [reflexivity|]. right.
        eexists resp, _. repeat split; assumption || reflexivity.
      * intros [= <-]. split; [reflexivity | left; reflexivity].
    + intros [= <-]. split; [reflexivity | left; reflexivity].
  - intros [= <-]. split; [reflexivity | left; reflexivity].
Qed.

(** The sample run of X4: the server cannot be reached. *)
Lemma download_file_failure_witness :
  Crawler.requests (snd (fetch unreachable_server empty_world)) =
    Crawler.requests empty_world ++ [attachment_url] /\
  (Crawler.fs (snd (fetch unreachable_server empty_world)) = Crawler.fs empty_world \/
   exists resp path,
     Crawler.respond unreachable_server attachment_url = Some resp /\
     Crawler.status_ok resp = true /\ Crawler.stream_ok resp = false /\
     Crawler.fs (snd (fetch unreachable_server empty_world)) =
     <[path := concat (Crawler.chunks resp)]> (Crawler.fs empty_world)).
Proof.
  apply (download_file_failure (fun s => s) unreachable_server attachment_url
           (str "abc.pdf") (str "mss_downloads/1_notice")).
  reflexivity.
Defined.

(** X5.  When the body breaks off while the file is written under the
    requested path, the call returns no path but leaves the partial file;
    the next call for the same attachment finds it, sends no request and
    returns its path as a success. *)
Theorem download_file_partial_file (unquote : pystr -> pystr) (e : Crawler.env)
    (file_url file_name notice_folder : pystr) (w : Crawler.world)
    (resp : Crawler.response) :
  let path := requested_path notice_folder file_url file_name in
  let w1 := Crawler.write_file path (concat (Crawler.chunks resp))
              (Crawler.send_request file_url w) in
  Crawler.path_exists w path = false ->
  Crawler.respond e file_url = Some resp ->
  Crawler.header_filename unquote (Crawler.content_disposition resp) = None ->
  Crawler.status_ok resp = true ->
  Crawler.can_open e path = true ->
  Crawler.stream_ok resp = false ->
  Crawler.download_file unquote e file_url file_name notice_folder w = (None, w1) /\
  Crawler.download_file unquote e file_url file_name notice_folder w1 = (Some path, w1) /\
  Crawler.fs w1 !! path = Some (concat (Crawler.chunks resp)).
Proof.
  intros path w1 Hex Hr Hh Hs Ho Hk. split; [|split].
  - unfold Crawler.download_file.
    fold (requested_path notice_folder file_url file_name). fold path.
    rewrite Hex, Hr, Hh, Hs. simpl. rewrite Ho, Hk. reflexivity.
  - apply download_file_existing. apply path_exists_write.
  - unfold w1, Crawler.write_file. simpl. apply lookup_insert_eq.
Qed.

(** The sample run of X5. *)
Lemma download_file_partial_file_witness :
  fst (fetch broken_server empty_world) = None /\
  fetch broken_server (snd (fetch broken_server empty_world)) =
    (Some (str "mss_downloads/1_notice/abc.pdf"), snd (fetch broken_server empty_world)).
Proof.
  destruct (download_file_partial_file (fun s => s) broken_server attachment_url
              (str "abc.pdf") (str "mss_downloads/1_notice") empty_world
              {| Crawler.content_disposition := [];
                 Crawler.status_ok := true;
                 Crawler.chunks := [str "%PDF-1.4"];
                 Crawler.stream_ok := false |})
    as (H1 & H2 & _); try reflexivity.
  split.
  - unfold fetch. rewrite H1. reflexivity.
  - unfold fetch at 1 3. rewrite H1. exact H2.
Defined.

(** X6.  A call that did not find the file and returns a path has sent
    one request and written one file, at that path: it holds the whole
    body of the response, replacing what may have been there, and no
    other file has changed. *)
Theorem download_file_writes_body (unquote : pystr -> pystr) (e : Crawler.env)
    (file_url file_name notice_folder path : pystr) (w w1 : Crawler.world) :
  Crawler.path_exists w (requested_path notice_folder file_url file_name) = false ->
  Crawler.download_file unquote e file_url file_name notice_folder w = (Some path, w1) ->
  exists resp,
    Crawler.respond e file_url = Some resp /\
    Crawler.fs w1 = <[path := concat (Crawler.chunks resp)]> (Crawler.fs w) /\
    Crawler.fs w1 !! path = Some (concat (Crawler.chunks resp)) /\
    (forall other, other <> path -> Crawler.fs w1 !! other = Crawler.fs w !! other) /\
    Crawler.requests w1 = Crawler.requests w ++ [file_url].
Proof.
  intros Hex. unfold Crawler.download_file.
  fold (requested_path notice_folder file_url file_name). rewrite Hex.
  destruct (Crawler.respond e file_url) as [resp|]; [|discriminate].
  destruct (negb (Crawler.status_ok resp)); [discriminate|].
  destruct (negb (Crawler.can_open e _)); [discriminate|].
  destruct (Crawler.stream_ok resp); [|discriminate].
  intros [= <- <-]. exists resp. simpl.
  split; [reflexivity|]. split; [reflexivity|].
  split; [apply lookup_insert_eq|].
  split; [|reflexivity].
  intros other Hne. apply lookup_insert_ne. congruence.
Qed.

(** The sample run of X6: the file is stored under the header's name. *)
Lemma download_file_writes_body_witness :
  exists resp,
    Crawler.respond renaming_server attachment_url = Some resp /\
    Crawler.fs (snd (fetch renaming_server empty_world)) =
      <[str "mss_downloads/1_notice/notice.pdf" := concat (Crawler.chunks resp)]>
        (Crawler.fs empty_world) /\
    Crawler.fs (snd (fetch renaming_server empty_world)) !!
      str "mss_downloads/1_notice/notice.pdf" = Some (concat (Crawler.chunks resp)) /\
    (forall other, other <> str "mss_downloads/1_notice/notice.pdf" ->
       Crawler.fs (snd (fetch renaming_server empty_world)) !! other =
       Crawler.fs empty_world !! other) /\
    Crawler.requests (snd (fetch renaming_server empty_world)) =
      Crawler.requests empty_world ++ [attachment_url].
Proof.
  apply (download_file_writes_body (fun s => s) renaming_server attachment_url
           (str "abc.pdf") (str "mss_downloads/1_notice")).
  - vm_compute. reflexivity.
  - vm_compute. reflexivity.
Defined.

(** ** Ingestion *)







(** The calls one file adds to the trace. *)
Lemma process_pdf_file_calls (e : Ingest.env) (pdf_path : pystr)
    (tr tr' : Ingest.trace) (r : result (option dict)) :
  Ingest.process_pdf_file e pdf_path tr = (r, tr') ->
  exists c m i : nat,
    n_chat tr' = (n_chat tr + c)%nat /\ n_embed tr' = (n_embed tr + m)%nat /\
    n_insert tr' = (n_insert tr + i)%nat /\
    (i <= m)%nat /\ (m <= c)%nat /\ (c <= 1)%nat /\
    (forall row, r = Ret (Some row) -> i = 1%nat).
Proof.
  unfold Ingest.process_pdf_file.
  destruct (Ingest.extract_text_from_pdf e pdf_path) as [[|ch text]|];
    try (intros [= <- <-]; exists 0%nat, 0%nat, 0%nat;
         repeat split; try lia; discriminate).
  pose proof (extract_metadata_trace e (ch :: text) (basename pdf_path) tr) as Hm.
  destruct (Ingest.extract_metadata e (ch :: text) (basename pdf_path) tr)
    as [metadata tr1]. simpl in Hm. subst tr1.
  assert (forall ev, n_chat (tr ++ [Ingest.ChatCompletion ev]) = (n_chat tr + 1)%nat /\
                     n_embed (tr ++ [Ingest.ChatCompletion ev]) = (n_embed tr + 0)%nat /\
                     n_insert (tr ++ [Ingest.ChatCompletion ev]) = (n_insert tr + 0)%nat) as H1.
  { intros ev. unfold n_chat, n_embed, n_insert.
    rewrite !List.filter_app, !length_app. simpl. repeat split; lia. }
  assert (forall t ev, n_chat (t ++ [Ingest.Embedding ev]) = (n_chat t + 0)%nat /\
                       n_embed (t ++ [Ingest.Embedding ev]) = (n_embed t + 1)%nat /\
                       n_insert (t ++ [Ingest.Embedding ev]) = (n_insert t + 0)%nat) as H2.
  { intros t ev. unfold n_chat, n_embed, n_insert.
    rewrite !List.filter_app, !length_app. simpl. repeat split; lia. }
  assert (forall t ev, n_chat (t ++ [Ingest.Insert ev]) = (n_chat t + 0)%nat /\
                       n_embed (t ++ [Ingest.Insert ev]) = (n_embed t + 0)%nat /\
                       n_insert (t ++ [Ingest.Insert ev]) = (n_insert t + 1)%nat) as H3.
  { intros t ev. unfold n_chat, n_embed, n_insert.
    rewrite !List.filter_app, !length_app. simpl. repeat split; lia. }
  destruct metadata as [[|kv metadata]|];
    try (intros [= <- <-]; destruct (H1 (Ingest.prompt_of (ch :: text))) as (? & ? & ?);
         exists 1%nat, 0%nat, 0%nat; repeat split; try lia; discriminate).
  destruct (Ingest.title_preview (kv :: metadata));
    [|intros [= <- <-]; destruct (H1 (Ingest.prompt_of (ch :: text))) as (? & ? & ?);
      exists 1%nat, 0%nat, 0%nat; repeat split; try lia; discriminate].
  unfold Ingest.create_embedding.
  destruct (H1 (Ingest.prompt_of (ch :: text))) as (A1 & A2 & A3).
  destruct (H2 (tr ++ [Ingest.ChatCompletion (Ingest.prompt_of (ch :: text))])
               (slice_to Ingest.EMBEDDING_CHARS (ch :: text))) as (B1 & B2 & B3).
  destruct (Ingest.embed e _) as [[|x embedding]|];
    try (intros [= <- <-]; exists 1%nat, 1%nat, 0%nat; repeat split; try lia; discriminate).
  pose proof (store_to_supabase_trace e (ch :: text) (kv :: metadata) (x :: embedding)
                ((tr ++ [Ingest.ChatCompletion (Ingest.prompt_of (ch :: text))]) ++
                 [Ingest.Embedding (slice_to Ingest.EMBEDDING_CHARS (ch :: text))])) as Hs.
  destruct (Ingest.store_to_supabase _ _ _ _ _) as [result tr3]. simpl in Hs. subst tr3.
  destruct (H3 ((tr ++ [Ingest.ChatCompletion (Ingest.prompt_of (ch :: text))]) ++
                [Ingest.Embedding (slice_to Ingest.EMBEDDING_CHARS (ch :: text))])
               (Ingest.record_of e (ch :: text) (kv :: metadata) (x :: embedding)))
    as (C1 & C2 & C3).
  intros H. exists 1%nat, 1%nat, 1%nat.
  assert (tr' = (tr ++ [Ingest.ChatCompletion (Ingest.prompt_of (ch :: text))]) ++
                [Ingest.Embedding (slice_to Ingest.EMBEDDING_CHARS (ch :: text))] ++
                [Ingest.Insert (Ingest.record_of e (ch :: text) (kv :: metadata) (x :: embedding))])
    as -> by (destruct result as [[|? ?]|]; injection H as _ <-; rewrite <- !app_assoc; reflexivity).
  rewrite app_assoc. repeat split; lia.
Qed.

Lemma process_files_calls (e : Ingest.env) (pdf_files : list pystr)
    (success_count : N) (tr tr' : Ingest.trace) (r : result N) :
  Ingest.process_files e pdf_files success_count tr = (r, tr') ->
  exists c m i : nat,
    n_chat tr' = (n_chat tr + c)%nat /\ n_embed tr' = (n_embed tr + m)%nat /\
    n_insert tr' = (n_insert tr + i)%nat /\
    (i <= m)%nat /\ (m <= c)%nat /\ (c <= length pdf_files)%nat /\
    (forall n, r = Ret n -> success_count <= n /\ n <= success_count + N.of_nat i).
Proof.
  revert success_count tr. induction pdf_files as [|pdf_path rest IH];
    intros success_count tr; simpl.
  - intros [= <- <-]. exists 0%nat, 0%nat, 0%nat. repeat split; try lia;
      injection H as <-; lia.
  - destruct (Ingest.process_pdf_file e pdf_path tr) as [r1 tr1] eqn:E.
    destruct (process_pdf_file_calls _ _ _ _ _ E) as (c & m & i & Hc & Hm & Hi & L1 & L2 & L3 & Hrow).
    destruct r1 as [[row|]|ex].
    + intros H. destruct (IH _ _ H) as (c' & m' & i' & Hc' & Hm' & Hi' & L1' & L2' & L3' & Hn).
      specialize (Hrow row eq_refl).
      exists (c + c')%nat, (m + m')%nat, (i + i')%nat.
      repeat split; try lia; specialize (Hn n H0); lia.
    + intros H. destruct (IH _ _ H) as (c' & m' & i' & Hc' & Hm' & Hi' & L1' & L2' & L3' & Hn).
      exists (c + c')%nat, (m + m')%nat, (i + i')%nat.
      repeat split; try lia; specialize (Hn n H0); lia.
    + intros [= <- <-]. exists c, m, i. repeat split; try lia; discriminate.
Qed.

(** X8.  In the trace of a directory run, whatever its outcome, there
    are at most as many inserts as embedding requests, at most as many
    embedding requests as requests to the model, and at most one request
    to the model for each PDF file found; the count returned is at most
    the number of inserts. *)
Theorem process_directory_calls (e : Ingest.env) (directory_path : pystr)
    (r : result N) (tr : Ingest.trace) :
  Ingest.process_directory e directory_path [] = (r, tr) ->
  (n_insert tr <= n_embed tr)%nat /\ (n_embed tr <= n_chat tr)%nat /\
  (n_chat tr <= length (Ingest.find_pdf_files e directory_path))%nat /\
  match r with
  | Ret n => (N.to_nat n <= n_insert tr)%nat
  | Raise _ => True
  end.
Proof.
  unfold Ingest.process_directory. intros H.
  destruct (process_files_calls _ _ _ _ _ _ H)
    as (c & m & i & Hc & Hm & Hi & L1 & L2 & L3 & Hn).
  change (n_chat []) with 0%nat in Hc. change (n_embed []) with 0%nat in Hm.
  change (n_insert []) with 0%nat in Hi.
  repeat split; try lia.
  destruct r as [n|ex]; [|exact I]. specialize (Hn n eq_refl). lia.
Qed.

(** The sample run of X8. *)
Lemma process_directory_calls_witness :
  let tr := snd (Ingest.process_directory (sample_env null_tags_reply)
                   (str "mss_downloads") []) in
  (n_insert tr <= n_embed tr)%nat /\ (n_embed tr <= n_chat tr)%nat /\
  (n_chat tr <= length (Ingest.find_pdf_files (sample_env null_tags_reply)
                          (str "mss_downloads")))%nat /\
  match fst (Ingest.process_directory (sample_env null_tags_reply)
               (str "mss_downloads") []) with
  | Ret n => (N.to_nat n <= n_insert tr)%nat
  | Raise _ => True
  end.
Proof.
  apply (process_directory_calls (sample_env null_tags_reply) (str "mss_downloads")).
  apply surjective_pairing.
Defined.

Lemma startswith_app_r (p s t : pystr) :
  startswith p s = true -> startswith p (s ++ t) = true.
Proof.
  revert s. induction p as [|a p IH]; intros [|b s]; simpl; try reflexivity; try discriminate.
  rewrite !andb_true_iff. intros [E H]. split; [exact E | apply IH, H].
Qed.

Lemma endswith_app (p a b : pystr) :
  endswith p b = true -> endswith p (a ++ b) = true.
Proof.
  unfold endswith. rewrite rev_app_distr. apply startswith_app_r.
Qed.

Lemma path_join_endswith (p folder name : pystr) :
  endswith p (lower_ascii name) = true ->
  endswith p (lower_ascii (path_join folder name)) = true.
Proof.
  intros H. unfold path_join, lower_ascii in *.
  destruct (startswith [slash] name); [exact H|].
  destruct (Py.eqb folder [] || endswith [slash] folder).
  - rewrite map_app. apply endswith_app, H.
  - rewrite !map_app. apply endswith_app, endswith_app, H.
Qed.

(** X9.  Every path [process_directory] works on ends in [.pdf], in any
    mix of upper and lower case, and is a file of one of the walked
    folders joined to that folder; a file with another ending is never
    among them. *)
Theorem find_pdf_files_only_pdf (e : Ingest.env) (directory_path : pystr) :
  Forall (fun path =>
            endswith (str ".pdf") (lower_ascii path) = true /\
            exists root files file,
              In (root, files) (Ingest.walk e directory_path) /\ In file files /\
              Ingest.is_pdf file = true /\ path = path_join root file)
         (Ingest.find_pdf_files e directory_path) /\
  Forall (fun rf => Forall (fun file =>
            if Ingest.is_pdf file
            then In (path_join (fst rf) file) (Ingest.find_pdf_files e directory_path)
            else True) (snd rf))
         (Ingest.walk e directory_path).
Proof.
  unfold Ingest.find_pdf_files. split.
  - apply List.Forall_forall. intros path Hp.
    apply in_flat_map in Hp as ([root files] & Hw & Hp). simpl in Hp.
    apply in_map_iff in Hp as (file & <- & Hf). apply filter_In in Hf as [Hf Hpdf].
    split.
    + apply path_join_endswith. exact Hpdf.
    + exists root, files, file. auto.
  - apply List.Forall_forall. intros [root files] Hw.
    apply List.Forall_forall. intros file Hf. simpl.
    destruct (Ingest.is_pdf file) eqn:E; [|exact I].
    apply in_flat_map. exists (root, files). split; [exact Hw|]. simpl.
    apply in_map, filter_In. auto.
Qed.

Lemma drop_while_head {A} (p : A -> bool) (l : list A) (x : A) (t : list A) :
  drop_while p l = x :: t -> p x = false.
Proof.
  induction l as [|y l IH]; simpl; [discriminate|].
  destruct (p y) eqn:E; [exact IH|]. intros [= -> _]. exact E.
Qed.

Lemma drop_while_suffix {A} (p : A -> bool) (l : list A) :
  exists a, l = a ++ drop_while p l.
Proof.
  induction l as [|y l [a IH]]; simpl; [exists []; reflexivity|].
  destruct (p y).
  - exists (y :: a). simpl. congruence.
  - exists []. reflexivity.
Qed.

(** The ends of a stripped string are no white space. *)
Lemma strip_ends (s : pystr) :
  (forall c t, strip s = c :: t -> is_space c = false) /\
  (forall c t, strip s = t ++ [c] -> is_space c = false).
Proof.
  unfold strip, rstrip. split; intros c t H.
  - destruct (drop_while_suffix is_space (rev (lstrip s))) as [a Ha].
    apply (f_equal (@rev N)) in Ha. rewrite rev_involutive, rev_app_distr, H in Ha.
    simpl in Ha. unfold lstrip in Ha. eapply drop_while_head, Ha.
  - apply (f_equal (@rev N)) in H. rewrite rev_involutive, rev_app_distr in H.
    simpl in H. eapply drop_while_head, H.
Qed.

Lemma join_pages_texts (texts : list pystr) (text : pystr) :
  Ingest.join_pages text (List.map Some texts) =
  Some (text ++ concat (List.map (fun page => page ++ [10]) texts)).
Proof.
  revert text. induction texts as [|page texts IH]; intros text; simpl.
  - rewrite app_nil_r. reflexivity.
  - rewrite IH, <- !app_assoc. reflexivity.
Qed.

Lemma join_pages_none (pages : list (option pystr)) (text : pystr) :
  Ingest.join_pages text pages = None <-> In None pages.
Proof.
  revert text. induction pages as [|[page|] pages IH]; intros text; simpl.
  - split; [discriminate | tauto].
  - rewrite IH. split; [auto | intros [H|H]; [discriminate | exact H]].
  - split; auto.
Qed.

(** X10.  [extract_text_from_pdf] gives all or nothing: it fails exactly
    when the file cannot be read or the extraction of one of its pages
    raises, no text of the other pages being kept; otherwise it returns
    the pages' texts, each followed by a line end, joined and stripped,
    a text that neither begins nor ends with white space. *)
Theorem extract_text_all_or_nothing (e : Ingest.env) (pdf_path : pystr) :
  (Ingest.extract_text_from_pdf e pdf_path = None <->
   Ingest.read_pdf e pdf_path = None \/
   exists pages, Ingest.read_pdf e pdf_path = Some pages /\ In None pages) /\
  (forall texts, Ingest.read_pdf e pdf_path = Some (List.map Some texts) ->
     Ingest.extract_text_from_pdf e pdf_path =
     Some (strip (concat (List.map (fun page => page ++ [10]) texts)))) /\
  (forall text, Ingest.extract_text_from_pdf e pdf_path = Some text ->
     (forall c t, text = c :: t -> is_space c = false) /\
     (forall c t, text = t ++ [c] -> is_space c = false)).
Proof.
  unfold Ingest.extract_text_from_pdf. split; [|split].
  - destruct (Ingest.read_pdf e pdf_path) as [pages|]; [|split; auto].
    pose proof (join_pages_none pages []) as Hn.
    destruct (Ingest.join_pages [] pages) as [text|].
    + split; [discriminate|]. intros [H | (pages' & [= <-] & Hin)]; [discriminate|].
      apply Hn in Hin. discriminate.
    + split; [|reflexivity]. intros _. right. exists pages. split; [reflexivity|].
      apply Hn. reflexivity.
  - intros texts ->. rewrite join_pages_texts. reflexivity.
  - intros text H.
    destruct (Ingest.read_pdf e pdf_path) as [pages|]; [|discriminate].
    destruct (Ingest.join_pages [] pages) as [joined|]; [|discriminate].
    injection H as <-. apply strip_ends.
Qed.

(** The sample run of X10: the text of the sample announcement. *)
Lemma extract_text_all_or_nothing_witness :
  Ingest.extract_text_from_pdf (sample_env null_tags_reply) (str "a.pdf") =
  Some (strip (concat (List.map (fun page => page ++ [10]) [notice_text]))).
Proof.
  exact (proj1 (proj2 (extract_text_all_or_nothing (sample_env null_tags_reply) (str "a.pdf")))
               [notice_text] eq_refl).
Defined.

(** X11.  The three truncations nest: the stored excerpt is a prefix of
    the text that is embedded, which is a prefix of the text the model
    sees; a text of at most 5000 characters is used whole three times.
    The prompt is at most 15688 characters long. *)
Theorem truncations_nest (text : pystr) :
  slice_to Ingest.CONTENT_CHARS (slice_to Ingest.EMBEDDING_CHARS text) =
    slice_to Ingest.CONTENT_CHARS text /\
  slice_to Ingest.EMBEDDING_CHARS (slice_to Ingest.METADATA_CHARS text) =
    slice_to Ingest.EMBEDDING_CHARS text /\
  (N.of_nat (length text) <= 5000 ->
   slice_to Ingest.CONTENT_CHARS text = text /\
   slice_to Ingest.EMBEDDING_CHARS text = text /\
   slice_to Ingest.METADATA_CHARS text = text) /\
  N.of_nat (length (Ingest.prompt_of text)) <= 15688.
Proof.
  unfold slice_to, Ingest.CONTENT_CHARS, Ingest.EMBEDDING_CHARS, Ingest.METADATA_CHARS.
  split; [|split; [|split]].
  - rewrite take_take, <- N2Nat.inj_min. reflexivity.
  - rewrite take_take, <- N2Nat.inj_min. reflexivity.
  - intros H. repeat split; apply take_ge; lia.
  - unfold Ingest.prompt_of, slice_to, Ingest.METADATA_CHARS.
    rewrite !length_app, length_take.
    change (length Ingest.prompt_head) with 64%nat.
    change (length Ingest.prompt_tail) with 624%nat. lia.
Qed.

(** The sample run of X11. *)
Lemma truncations_nest_witness :
  slice_to Ingest.CONTENT_CHARS notice_text = notice_text /\
  slice_to Ingest.EMBEDDING_CHARS notice_text = notice_text /\
  slice_to Ingest.METADATA_CHARS notice_text = notice_text.
Proof.
  apply (proj1 (proj2 (proj2 (truncations_nest notice_text)))).
  vm_compute. discriminate.
Defined.





(** ** API *)




Lemma sum_counts_bump (org : pystr) (d : list (pystr * N)) :
  sum_counts (Api.bump org d) = sum_counts d + 1.
Proof.
  induction d as [|[k n] d IH]; simpl; [reflexivity|].
  destruct (Py.eqb k org); simpl; [|rewrite IH]; lia.
Qed.

Lemma sum_counts_fold (rows : list Api.row) (d : list (pystr * N)) :
  sum_counts (fold_left count_step rows d) = sum_counts d + N.of_nat (length rows).
Proof.
  revert d. induction rows as [|r rows IH]; intros d; simpl length.
  - simpl. lia.
  - simpl fold_left. rewrite IH. unfold count_step. rewrite sum_counts_bump. lia.
Qed.

Lemma sum_counts_perm (l l' : list (pystr * N)) :
  Permutation l l' -> sum_counts l = sum_counts l'.
Proof.
  induction 1; simpl; lia || congruence.
Qed.

Lemma sum_counts_app (l l' : list (pystr * N)) :
  sum_counts (l ++ l') = sum_counts l + sum_counts l'.
Proof.
  induction l as [|p l IH]; simpl; [reflexivity|]. rewrite IH. lia.
Qed.

(** X14.  The counts of the statistics add up: over all organizations
    they sum to the number of rows, so the counts of the top
    organizations sum to at most [total_projects], and to exactly that
    when the table has at most five organizations; there are never more
    organizations than rows. *)
Theorem get_stats_sums (ilike : pystr -> pystr -> bool) (rows : list Api.row) :
  exists s,
    Api.get_stats ilike (Api.Up rows) = Api.OK s /\
    sum_counts (Api.count_orgs rows) = Api.total_projects s /\
    sum_counts (Api.top_organizations s) <= Api.total_projects s /\
    (if Nat.leb (distinct_organizations rows) 5
     then sum_counts (Api.top_organizations s) = Api.total_projects s
     else length (Api.top_organizations s) = 5%nat) /\
    Api.organizations s <= Api.total_projects s.
Proof.
  eexists. split.
  { unfold Api.get_stats, Api.execute, Api.run. simpl.
    replace (List.filter (fun _ : Api.row => true) rows) with rows
      by (clear; induction rows as [|r rows IH]; simpl; congruence).
    reflexivity. }
  simpl.
  assert (sum_counts (Api.count_orgs rows) = N.of_nat (length rows)) as Hsum.
  { counting. rewrite sum_counts_fold. reflexivity. }
  pose proof (sorted_desc_perm snd (Api.count_orgs rows)) as Hperm.
  pose proof (sum_counts_perm _ _ Hperm) as Hs.
  rewrite <- (take_drop 5 (sorted_desc snd (Api.count_orgs rows))), sum_counts_app in Hs.
  split; [exact Hsum|]. split; [lia|]. split.
  - destruct (Nat.leb_spec (distinct_organizations rows) 5) as [Hle|Hgt].
    + rewrite take_ge; [rewrite (sum_counts_perm _ _ Hperm); exact Hsum|].
      rewrite (Permutation_length Hperm), count_orgs_length. exact Hle.
    + rewrite length_take, (Permutation_length Hperm), count_orgs_length. lia.
  - assert (Forall (fun p => 1 <= snd p) (Api.count_orgs rows)) as Hpos
      by (counting; apply fold_positive; constructor).
    assert (N.of_nat (length (Api.count_orgs rows)) <= sum_counts (Api.count_orgs rows)) as Hl.
    { clear -Hpos. induction Hpos as [|p l Hp Hl IH]; simpl length; simpl sum_counts; lia. }
    lia.
Qed.

Lemma filter_insert_desc {A} (key : A -> N) (k : N) (x : A) (l : list A) :
  List.filter (fun y => key y =? k) (insert_desc key x l) =
  List.filter (fun y => key y =? k) (x :: l).
Proof.
  induction l as [|y l IH]; [reflexivity|]. cbn [insert_desc].
  destruct (N.leb_spec (key y) (key x)) as [Hle|Hlt]; [reflexivity|].
  cbn [List.filter] in *. rewrite IH.
  destruct (N.eqb_spec (key x) k), (N.eqb_spec (key y) k); try reflexivity. lia.
Qed.

Lemma filter_sorted_desc {A} (key : A -> N) (k : N) (l : list A) :
  List.filter (fun y => key y =? k) (sorted_desc key l) =
  List.filter (fun y => key y =? k) l.
Proof.
  induction l as [|x l IH]; [reflexivity|]. cbn [sorted_desc].
  rewrite filter_insert_desc. cbn [List.filter]. rewrite IH. reflexivity.
Qed.

Lemma bump_keys_order (org : pystr) (d : list (pystr * N)) :
  List.map fst (Api.bump org d) =
  List.map fst d ++ (if Api.mem org (List.map fst d) then [] else [org]).
Proof.
  unfold Api.mem. induction d as [|[k n] d IH]; simpl; [reflexivity|].
  destruct (Py.eqb k org) eqn:E; simpl.
  - apply eqb_eq in E. subst k. rewrite eqb_refl. simpl. rewrite app_nil_r. reflexivity.
  - assert (Py.eqb org k = false) as ->.
    { apply eqb_neq. intros ->. rewrite eqb_refl in E. discriminate. }
    simpl. rewrite IH. reflexivity.
Qed.

(** X15.  Organizations with equal counts are ranked in the order in
    which the table first shows them: the counting dict lists the
    organizations by first appearance, a further row adding its
    organization at the end if it is new, and the ranking, of which the
    top organizations are the first five, keeps the organizations of each
    count in the order of the dict. *)
Theorem get_stats_ties_first_seen (rows : list Api.row) (r : Api.row) (k : N) :
  List.map fst (Api.count_orgs []) = [] /\
  List.map fst (Api.count_orgs (rows ++ [r])) =
    List.map fst (Api.count_orgs rows) ++
    (if Api.mem (Api.organization r) (List.map fst (Api.count_orgs rows))
     then [] else [Api.organization r]) /\
  List.filter (fun p => snd p =? k) (sorted_desc snd (Api.count_orgs rows)) =
    List.filter (fun p => snd p =? k) (Api.count_orgs rows).
Proof.
  split; [reflexivity|]. split.
  - unfold Api.count_orgs. rewrite fold_left_app. simpl. apply bump_keys_order.
  - apply filter_sorted_desc.
Qed.





(** ** Crawler: the listing *)

Example notice_of_row_sample :
  Listing.notice_of_row sample_row =
  {| Listing.number := str "1834";
     Listing.title := Some (str "2025년 창업성장기술개발사업 시행계획 공고");
     Listing.attachments :=
       [{| Listing.name := str "abc.pdf";
           Listing.url :=
             str "https://www.mss.go.kr/common/board/Download.do?bcIdx=1&streFileNm=abc.pdf" |};
        {| Listing.name := str "file_1";
           Listing.url := str "https://example.org/plan" |}];
     Listing.date := str "2025.01.02";
     Listing.views := str "0" |}.
Proof. vm_compute. reflexivity. Qed.

Lemma absolute_http (href : pystr) :
  startswith (str "http") (Listing.absolute href) = true.
Proof.
  unfold Listing.absolute. destruct (startswith (str "http") href) eqn:E; [exact E|].
  apply startswith_app_r. reflexivity.
Qed.

Lemma collect_urls (hrefs : list (option pystr)) (found : list Listing.attachment) :
  List.map Listing.url (Listing.collect hrefs found) =
  List.map Listing.url found ++ hrefs_given hrefs.
Proof.
  revert found. induction hrefs as [|[[|c href]|] hrefs IH]; intros found; simpl.
  - rewrite app_nil_r. reflexivity.
  - apply IH.
  - rewrite IH, map_app, <- app_assoc. reflexivity.
  - apply IH.
Qed.

Lemma collect_names (hrefs : list (option pystr)) (found : list Listing.attachment) :
  (forall i a, found !! i = Some a ->
     Listing.name a = Listing.file_name (Listing.url a) i) ->
  forall i a, Listing.collect hrefs found !! i = Some a ->
    Listing.name a = Listing.file_name (Listing.url a) i.
Proof.
  revert found. induction hrefs as [|[[|c href]|] hrefs IH]; intros found H; simpl;
    try (apply IH; exact H); [exact H|].
  apply IH. intros i a Hi.
  apply lookup_app_Some in Hi as [Hf | [Hge Hn]]; [apply H, Hf|].
  destruct (i - length found)%nat eqn:E; [|discriminate].
  injection Hn as <-. simpl. f_equal. lia.
Qed.

(** X17.  The attachments of a notice are the spans with a non-empty
    [data-href], in the order of the page; every address is absolute: one
    that starts with [http] is kept, any other is put behind the site's
    origin; and the name of the attachment at position [i] is the name
    [file_name] derives from its address and [i]. *)
Theorem attachments_of_row (row : Listing.row_view) :
  let found := Listing.attachments (Listing.notice_of_row row) in
  List.map Listing.url found = hrefs_given (Listing.file_hrefs row) /\
  Forall (fun a => startswith (str "http") (Listing.url a) = true) found /\
  (forall href, Listing.absolute href =
     if startswith (str "http") href then href else str "https://www.mss.go.kr" ++ href) /\
  (forall i a, found !! i = Some a ->
     Listing.name a = Listing.file_name (Listing.url a) i).
Proof.
  intros found. unfold found. simpl.
  pose proof (collect_urls (Listing.file_hrefs row) []) as Hu. simpl in Hu.
  split; [exact Hu|]. split; [|split].
  - apply Forall_map with (f := Listing.url) (P := fun u => startswith (str "http") u = true).
    change (map Listing.url (Listing.collect (Listing.file_hrefs row) []))
      with (List.map Listing.url (Listing.collect (Listing.file_hrefs row) [])).
    rewrite Hu. unfold hrefs_given. apply List.Forall_forall. intros u Hin.
    apply in_flat_map in Hin as (h & _ & Hin).
    destruct h as [[|c href]|]; simpl in Hin; try contradiction.
    destruct Hin as [<- | []]. apply absolute_http.
  - reflexivity.
  - apply collect_names. intros i a Hi. rewrite lookup_nil in Hi. discriminate.
Qed.

(** The sample run of X17: the second attachment of the sample row. *)
Lemma attachments_of_row_witness :
  Listing.name {| Listing.name := str "file_1"; Listing.url := str "https://example.org/plan" |} =
  Listing.file_name
    (Listing.url {| Listing.name := str "file_1"; Listing.url := str "https://example.org/plan" |})
    1.
Proof.
  apply (proj2 (proj2 (proj2 (attachments_of_row sample_row))) 1%nat).
  vm_compute. reflexivity.
Defined.

Lemma startswith_split (p s : pystr) :
  startswith p s = true -> s = p ++ drop (length p) s.
Proof.
  revert s. induction p as [|a p IH]; intros [|b s]; simpl; try reflexivity; try discriminate.
  rewrite andb_true_iff, N.eqb_eq. intros [-> H]. f_equal. apply IH, H.
Qed.

Lemma contains_suffix (p a b : pystr) :
  contains p b = true -> contains p (a ++ b) = true.
Proof.
  intros H. induction a as [|x a IH]; [exact H|].
  simpl. rewrite IH. apply orb_true_r.
Qed.

Lemma after_last_none (s : pystr) :
  Listing.after_last s = None <-> contains Listing.marker s = false.
Proof.
  induction s as [|c s IH].
  - split; reflexivity.
  - cbn [Listing.after_last contains]. rewrite orb_false_iff, <- IH.
    destruct (Listing.after_last s); [split; [discriminate | intros [_ H]; discriminate]|].
    destruct (startswith Listing.marker (c :: s)); split; try discriminate; auto.
    intros [H _]. discriminate.
Qed.

Lemma after_last_some (s rest : pystr) :
  Listing.after_last s = Some rest ->
  (exists before, s = before ++ Listing.marker ++ rest) /\
  contains Listing.marker rest = false.
Proof.
  revert rest. induction s as [|c s IH]; intros rest; [discriminate|].
  cbn [Listing.after_last].
  destruct (Listing.after_last s) as [r|] eqn:E.
  - intros [= <-]. destruct (IH r eq_refl) as [[before ->] Hn].
    split; [exists (c :: before); reflexivity | exact Hn].
  - destruct (startswith Listing.marker (c :: s)) eqn:Es; [|discriminate].
    intros [= <-]. pose proof (startswith_split _ _ Es) as Hs. split.
    + exists []. exact Hs.
    + apply after_last_none in E.
      destruct (contains Listing.marker (drop (length Listing.marker) (c :: s))) eqn:Ec;
        [exfalso | exact Ec].
      assert (contains Listing.marker s = true) as Ht.
      { pose proof Hs as Hs'. unfold Listing.marker in Hs' at 1. cbn [app] in Hs'.
        injection Hs' as _ Hs'. rewrite Hs'.
        exact (contains_suffix Listing.marker (tl Listing.marker) _ Ec). }
      congruence.
Qed.

(** X18.  The name of an attachment whose address holds [streFileNm=] is
    what follows the last occurrence of that marker: the address ends
    with the marker and the name, and the marker does not occur in the
    name.  Without the marker the name is [file_] and the decimal
    number of attachments found before it in the row. *)
Theorem file_name_of_address (file_url : pystr) (index : nat) :
  if contains Listing.marker file_url
  then (exists before,
          file_url = before ++ str "streFileNm=" ++ Listing.file_name file_url index) /\
       contains Listing.marker (Listing.file_name file_url index) = false
  else Listing.file_name file_url index =
       str "file_" ++ str (NilZero.string_of_uint (Nat.to_uint index)).
Proof.
  unfold Listing.file_name.
  destruct (contains Listing.marker file_url) eqn:E; [|reflexivity].
  destruct (Listing.after_last file_url) as [rest|] eqn:Ea.
  - exact (after_last_some _ _ Ea).
  - apply after_last_none in Ea. congruence.
Qed.

(** ** Crawler: the crawl *)

Example crawl_sample :
  match Crawl.crawl_and_download sample_site (str "mss_downloads") (Some 2) (Some 5)
          initial_state with
  | (Crawl.Done notices, st) =>
      length notices = 2%nat /\ Crawl.pages st = [1; 2] /\
      Crawl.dirs st = [str "mss_downloads/1834_2025년 창업성장기술개발사업 시행계획 공고"] /\
      length (Crawler.requests (Crawl.disk st)) = 2%nat
  | _ => False
  end.
Proof. vm_compute. repeat split. Qed.

Lemma process_notice_pages (s : Crawl.site) (download_dir : pystr) (st st' : Crawl.state)
    (notice : Listing.notice) (r : Crawl.outcome unit) :
  Crawl.process_notice s download_dir st notice = (r, st') ->
  Crawl.pages st' = Crawl.pages st.
Proof.
  unfold Crawl.process_notice.
  destruct (Listing.title notice); [|intros [= _ <-]; reflexivity].
  destruct (Listing.attachments notice); [intros [= _ <-]; reflexivity|].
  destruct (Crawl.folder_exists st _); [intros [= _ <-]; reflexivity|].
  destruct (Crawl.can_mkdir s _); intros [= _ <-]; reflexivity.
Qed.

Lemma process_notices_pages (s : Crawl.site) (download_dir : pystr)
    (notices : list Listing.notice) (st st' : Crawl.state) (r : Crawl.outcome unit) :
  Crawl.process_notices s download_dir st notices = (r, st') ->
  Crawl.pages st' = Crawl.pages st.
Proof.
  revert st. induction notices as [|notice rest IH]; intros st; simpl.
  - intros [= _ <-]. reflexivity.
  - destruct (Crawl.process_notice s download_dir st notice) as [[u|err] st1] eqn:E.
    + intros H. rewrite (IH _ H). eapply process_notice_pages, E.
    + intros [= _ <-]. eapply process_notice_pages, E.
Qed.

(** The pages a run of the loop requests, from page [first] on. *)
Lemma crawl_pages_requests (s : Crawl.site) (download_dir : pystr) (max_items : option N)
    (html : pystr) (len first : nat) (all : list Listing.notice) (st st' : Crawl.state)
    (r : Crawl.outcome (list Listing.notice)) :
  (2 <= first)%nat ->
  Crawl.crawl_pages s download_dir max_items html (List.map N.of_nat (seq first len)) all st =
    (r, st') ->
  exists k, (k <= len)%nat /\
            Crawl.pages st' = Crawl.pages st ++ List.map N.of_nat (seq first k).
Proof.
  revert first all st. induction len as [|len IH]; intros first all st Hf; simpl.
  - intros [= _ <-]. exists 0%nat. split; [lia | simpl; rewrite app_nil_r; reflexivity].
  - destruct (N.eqb_spec (N.of_nat first) 1) as [E|_]; [lia|].
    assert (forall st0 all0,
              Crawl.crawl_pages s download_dir max_items html
                (List.map N.of_nat (seq (S first) len)) all0 st0 = (r, st') ->
              Crawl.pages st0 = Crawl.pages st ++ [N.of_nat first] ->
              exists k, (k <= S len)%nat /\
                Crawl.pages st' = Crawl.pages st ++ List.map N.of_nat (seq first k)) as Hrest.
    { intros st0 all0 H Hp. destruct (IH (S first) all0 st0 ltac:(lia) H) as (k & Hk & ->).
      exists (S k). split; [lia|]. rewrite Hp, <- app_assoc. reflexivity. }
    destruct (Crawl.get_page s (N.of_nat first)) as [[|c page]|].
    + intros H. eapply Hrest; [exact H | reflexivity].
    + destruct (Crawl.process_notices s download_dir _ _) as [[u|err] st1] eqn:En.
      * intros H. eapply Hrest; [exact H|].
        rewrite (process_notices_pages _ _ _ _ _ _ En). reflexivity.
      * intros [= _ <-]. exists 1%nat. split; [lia|].
        rewrite (process_notices_pages _ _ _ _ _ _ En). reflexivity.
    + intros H. eapply Hrest; [exact H | reflexivity].
Qed.

(** X19.  Whatever its outcome, a crawl requests the listing pages 1, 2,
    ... up to some page, in this order and each once; the first page is
    not requested again when the loop comes to it; and when [max_pages]
    is given and not zero, no page beyond it is requested. *)
Theorem crawl_page_requests (s : Crawl.site) (download_dir : pystr)
    (max_pages max_items : option N) (st st' : Crawl.state)
    (r : Crawl.outcome (list Listing.notice)) :
  Crawl.crawl_and_download s download_dir max_pages max_items st = (r, st') ->
  exists k,
    Crawl.pages st' = Crawl.pages st ++ List.map N.of_nat (seq 1 (S k)) /\
    match Crawl.given max_pages with
    | Some n => (S k <= Nat.max 1 (N.to_nat n))%nat
    | None => True
    end.
Proof.
  unfold Crawl.crawl_and_download.
  assert (forall res, res = (r, st') -> res = (Crawl.Done [], Crawl.request_page 1 st) \/
            (exists e, res = (Crawl.Failed (Crawl.Escaped e), Crawl.request_page 1 st)) ->
          exists k,
            Crawl.pages st' = Crawl.pages st ++ List.map N.of_nat (seq 1 (S k)) /\
            match Crawl.given max_pages with
            | Some n => (S k <= Nat.max 1 (N.to_nat n))%nat
            | None => True
            end) as Hstop.
  { intros res -> [H | [e H]]; injection H as _ ->; exists 0%nat;
      (split; [reflexivity | destruct (Crawl.given max_pages); [lia | exact I]]). }
  destruct (Crawl.get_page s 1) as [[|c html]|]; try (intros H; eapply Hstop; eauto; fail).
  destruct (Crawler.get_total_pages (Crawl.soup s) (c :: html)) as [total|e];
    [|intros H; eapply Hstop; eauto].
  set (capped := match Crawl.given max_pages with
                 | Some n => N.min total n
                 | None => total
                 end).
  unfold Crawl.page_range. destruct (N.to_nat capped) as [|len] eqn:Ec; simpl.
  - intros [= _ <-]. exists 0%nat.
    split; [reflexivity | destruct (Crawl.given max_pages); [lia | exact I]].
  - assert (forall st0 all0,
              Crawl.crawl_pages s download_dir max_items (c :: html)
                (List.map N.of_nat (seq 2 len)) all0 st0 = (r, st') ->
              Crawl.pages st0 = Crawl.pages st ++ [1] ->
              exists k,
                Crawl.pages st' = Crawl.pages st ++ List.map N.of_nat (seq 1 (S k)) /\
                match Crawl.given max_pages with
                | Some n => (S k <= Nat.max 1 (N.to_nat n))%nat
                | None => True
                end) as Hrest.
    { intros st0 all0 H Hp.
      destruct (crawl_pages_requests _ _ _ _ len 2 _ _ _ _ (le_n 2) H) as (k & Hk & ->).
      exists k. split; [rewrite Hp, <- app_assoc; reflexivity|].
      subst capped. revert Ec. destruct (Crawl.given max_pages); intros; [lia | exact I]. }
    destruct (Crawl.process_notices s download_dir _ _) as [[u|err] st1] eqn:En.
    + intros H. eapply Hrest; [exact H|].
      rewrite (process_notices_pages _ _ _ _ _ _ En). reflexivity.
    + intros [= _ <-]. exists 0%nat.
      rewrite (process_notices_pages _ _ _ _ _ _ En).
      split; [reflexivity | destruct (Crawl.given max_pages); [lia | exact I]].
Qed.

(** The sample run of X19. *)
Lemma crawl_page_requests_witness :
  exists k,
    Crawl.pages (snd (Crawl.crawl_and_download sample_site (str "mss_downloads")
                        (Some 2) (Some 5) initial_state)) =
      Crawl.pages initial_state ++ List.map N.of_nat (seq 1 (S k)) /\
    match Crawl.given (Some 2) with
    | Some n => (S k <= Nat.max 1 (N.to_nat n))%nat
    | None => True
    end.
Proof.
  apply (crawl_page_requests sample_site (str "mss_downloads") (Some 2) (Some 5)
           initial_state _
           (fst (Crawl.crawl_and_download sample_site (str "mss_downloads")
                   (Some 2) (Some 5) initial_state))).
  apply surjective_pairing.
Defined.

Lemma download_all_requests (s : Crawl.site) (notice_folder : pystr)
    (attachments : list Listing.attachment) (w : Crawler.world) :
  exists urls,
    Crawler.requests (Crawl.download_all s notice_folder attachments w) =
      Crawler.requests w ++ urls /\
    incl urls (List.map Listing.url attachments) /\
    (length urls <= length attachments)%nat.
Proof.
  revert w. induction attachments as [|a rest IH]; intros w; simpl.
  - exists []. rewrite app_nil_r. split; [reflexivity|]. split; [apply incl_refl | simpl; lia].
  - destruct (IH (snd (Crawler.download_file (Crawl.unquote s) (Crawl.server s)
                         (Listing.url a) (Listing.name a) notice_folder w)))
      as (urls & -> & Hi & Hl).
    rewrite download_file_requests.
    destruct (Crawler.path_exists w _).
    + exists urls. split; [reflexivity|]. split; [apply incl_tl, Hi | simpl; lia].
    + exists (Listing.url a :: urls). rewrite <- app_assoc.
      split; [reflexivity|]. split; [|simpl; lia].
      apply incl_cons; [left; reflexivity | apply incl_tl, Hi].
Qed.

Lemma process_notice_done (s : Crawl.site) (download_dir : pystr) (st st' : Crawl.state)
    (notice : Listing.notice) (u : unit) :
  Crawl.process_notice s download_dir st notice = (Crawl.Done u, st') ->
  is_Some (Listing.title notice) /\
  exists urls,
    Crawler.requests (Crawl.disk st') = Crawler.requests (Crawl.disk st) ++ urls /\
    incl urls (List.map Listing.url (Listing.attachments notice)) /\
    (length urls <= length (Listing.attachments notice))%nat.
Proof.
  unfold Crawl.process_notice.
  destruct (Listing.title notice) as [title|]; [|discriminate].
  assert (exists urls : list pystr,
            Crawler.requests (Crawl.disk st) = Crawler.requests (Crawl.disk st) ++ urls /\
            incl urls (List.map Listing.url (Listing.attachments notice)) /\
            (length urls <= length (Listing.attachments notice))%nat) as Hnone.
  { exists []. rewrite app_nil_r. split; [reflexivity|].
    split; [intros x [] | simpl; lia]. }
  destruct (Listing.attachments notice) as [|a rest] eqn:Ea.
  - intros [= _ <-]. split; [eauto | exact Hnone].
  - destruct (Crawl.folder_exists st _).
    + intros [= _ <-]. split; [eauto|]. cbn [Crawl.disk].
      apply (download_all_requests s _ (a :: rest)).
    + destruct (Crawl.can_mkdir s _); [|discriminate].
      intros [= _ <-]. split; [eauto|]. cbn [Crawl.disk].
      apply (download_all_requests s _ (a :: rest)).
Qed.

Lemma process_notices_done (s : Crawl.site) (download_dir : pystr)
    (notices : list Listing.notice) (st st' : Crawl.state) (u : unit) :
  Crawl.process_notices s download_dir st notices = (Crawl.Done u, st') ->
  Forall (fun n => is_Some (Listing.title n)) notices /\
  exists urls,
    Crawler.requests (Crawl.disk st') = Crawler.requests (Crawl.disk st) ++ urls /\
    incl urls (attachment_urls notices) /\
    (length urls <= length (attachment_urls notices))%nat.
Proof.
  unfold attachment_urls.
  revert st. induction notices as [|notice rest IH]; intros st; simpl.
  - intros [= _ <-]. split; [constructor|]. exists []. rewrite app_nil_r.
    split; [reflexivity|]. split; [apply incl_refl | simpl; lia].
  - destruct (Crawl.process_notice s download_dir st notice) as [[u1|err] st1] eqn:E;
      [|discriminate].
    intros H. destruct (process_notice_done _ _ _ _ _ _ E) as (Ht & urls1 & H1 & I1 & L1).
    destruct (IH _ H) as (Hts & urls2 & H2 & I2 & L2).
    split; [constructor; assumption|].
    exists (urls1 ++ urls2). rewrite H2, H1, <- app_assoc. split; [reflexivity|].
    rewrite map_app, length_app. split.
    + apply incl_app; [apply incl_appl, I1 | apply incl_appr, I2].
    + rewrite length_app, !length_map. rewrite length_map in L2. lia.
Qed.

Lemma process_notices_error (s : Crawl.site) (download_dir : pystr)
    (notices : list Listing.notice) (st st' : Crawl.state) (err : Crawl.error) :
  Crawl.process_notices s download_dir st notices = (Crawl.Failed err, st') ->
  match err with
  | Crawl.KeyError key => key = str "title" /\
                          Exists (fun n => Listing.title n = None) notices
  | Crawl.OSError _ => True
  | Crawl.Escaped _ => False
  end.
Proof.
  revert st. induction notices as [|notice rest IH]; intros st; simpl; [discriminate|].
  destruct (Crawl.process_notice s download_dir st notice) as [[u1|err1] st1] eqn:E.
  - intros H. specialize (IH _ H). destruct err; try exact IH.
    destruct IH as [Hk He]. split; [exact Hk | apply Exists_cons_tl, He].
  - intros [= <- <-]. revert E. unfold Crawl.process_notice.
    destruct (Listing.title notice) eqn:Et.
    + destruct (Listing.attachments notice); [discriminate|].
      destruct (Crawl.folder_exists st _); [discriminate|].
      destruct (Crawl.can_mkdir s _); [discriminate|].
      intros [= <- _]. exact I.
    + intros [= <- _]. split; [reflexivity | apply Exists_cons_hd, Et].
Qed.

(** What a run of the loop over the pages adds. *)
Lemma crawl_pages_done (s : Crawl.site) (download_dir : pystr) (max_items : option N)
    (html : pystr) (page_nums : list N) (all notices : list Listing.notice)
    (st st' : Crawl.state) :
  Crawl.crawl_pages s download_dir max_items html page_nums all st =
    (Crawl.Done notices, st') ->
  exists added urls,
    notices = all ++ added /\
    Forall (fun n => is_Some (Listing.title n)) added /\
    match Crawl.given max_items with
    | Some m => (length added <= length page_nums * N.to_nat m)%nat
    | None => True
    end /\
    Crawler.requests (Crawl.disk st') = Crawler.requests (Crawl.disk st) ++ urls /\
    incl urls (attachment_urls added) /\
    (length urls <= length (attachment_urls added))%nat.
Proof.
  revert all st. induction page_nums as [|page_num rest IH]; intros all st; simpl.
  - intros [= <- <-]. exists [], []. rewrite !app_nil_r.
    split; [reflexivity|]. split; [constructor|].
    split; [destruct (Crawl.given max_items); [simpl; lia | exact I]|].
    split; [reflexivity|]. split; [apply incl_refl | simpl; lia].
  - assert (forall st0, Crawl.disk st0 = Crawl.disk st ->
              Crawl.crawl_pages s download_dir max_items html rest all st0 =
                (Crawl.Done notices, st') ->
              exists added urls,
                notices = all ++ added /\
                Forall (fun n => is_Some (Listing.title n)) added /\
                match Crawl.given max_items with
                | Some m => (length added <= S (length rest) * N.to_nat m)%nat
                | None => True
                end /\
                Crawler.requests (Crawl.disk st') = Crawler.requests (Crawl.disk st) ++ urls /\
                incl urls (attachment_urls added) /\
                (length urls <= length (attachment_urls added))%nat) as Hskip.
    { intros st0 Hd H. destruct (IH _ _ H) as (added & urls & Hn & Ht & Hm & Hr & Hi & Hl).
      exists added, urls. rewrite <- Hd. repeat split; try assumption.
      destruct (Crawl.given max_items); [lia | exact I]. }
    assert (forall page_html st0, Crawl.disk st0 = Crawl.disk st ->
              match page_html with
              | None | Some [] =>
                  Crawl.crawl_pages s download_dir max_items html rest all st0
              | Some page_html =>
                  let notices := Listing.get_notice_list_with_files (Crawl.rows_of s) page_html in
                  let notices :=
                    match Crawl.given max_items with
                    | Some n => take (N.to_nat n) notices
                    | None => notices
                    end in
                  match Crawl.process_notices s download_dir st0 notices with
                  | (Crawl.Done _, st1) =>
                      Crawl.crawl_pages s download_dir max_items html rest (all ++ notices) st1
                  | (Crawl.Failed err, st1) => (Crawl.Failed err, st1)
                  end
              end = (Crawl.Done notices, st') ->
              exists added urls,
                notices = all ++ added /\
                Forall (fun n => is_Some (Listing.title n)) added /\
                match Crawl.given max_items with
                | Some m => (length added <= S (length rest) * N.to_nat m)%nat
                | None => True
                end /\
                Crawler.requests (Crawl.disk st') = Crawler.requests (Crawl.disk st) ++ urls /\
                incl urls (attachment_urls added) /\
                (length urls <= length (attachment_urls added))%nat) as Hpage.
    { intros [[|c page_html]|] st0 Hd; try (apply Hskip; exact Hd).
      cbv zeta.
      set (found := match Crawl.given max_items with
                    | Some n => take (N.to_nat n) _
                    | None => _
                    end).
      destruct (Crawl.process_notices s download_dir st0 found) as [[u|err] st1] eqn:En;
        [|discriminate].
      intros H. destruct (process_notices_done _ _ _ _ _ _ En) as (Ht1 & urls1 & Hr1 & Hi1 & Hl1).
      destruct (IH _ _ H) as (added & urls & Hn & Ht & Hm & Hr & Hi & Hl).
      exists (found ++ added), (urls1 ++ urls).
      split; [rewrite Hn, app_assoc; reflexivity|].
      split; [apply Forall_app; auto|].
      split.
      { subst found. destruct (Crawl.given max_items) as [m|]; [|exact I].
        rewrite length_app, length_take. lia. }
      split; [rewrite Hr, Hr1, Hd, app_assoc; reflexivity|].
      unfold attachment_urls in *. rewrite flat_map_app, map_app, !length_app. split.
      - apply incl_app; [apply incl_appl, Hi1 | apply incl_appr, Hi].
      - lia. }
    destruct (page_num =? 1).
    + exact (Hpage (Some html) st eq_refl).
    + exact (Hpage (Crawl.get_page s page_num) (Crawl.request_page page_num st) eq_refl).
Qed.



(** A run that ends well is the pair of its result and its last state. *)
Lemma outcome_done_pair {A : Type} (r : Crawl.outcome A * Crawl.state) (d : A) :
  match fst r with Crawl.Done _ => True | Crawl.Failed _ => False end ->
  r = (Crawl.Done (match fst r with Crawl.Done a => a | Crawl.Failed _ => d end), snd r).
Proof. destruct r as [[a|err] st]; simpl; [reflexivity | intros []]. Qed.


(** The loop over the pages fails only where a notice does: on a notice
    without title, or on a folder that cannot be made. *)
Lemma crawl_pages_error (s : Crawl.site) (download_dir : pystr) (max_items : option N)
    (html : pystr) (page_nums : list N) (all : list Listing.notice)
    (st st' : Crawl.state) (err : Crawl.error) :
  Crawl.crawl_pages s download_dir max_items html page_nums all st =
    (Crawl.Failed err, st') ->
  match err with
  | Crawl.KeyError key => key = str "title"
  | Crawl.OSError _ => True
  | Crawl.Escaped _ => False
  end.
Proof.
  revert all st. induction page_nums as [|page_num rest IH]; intros all st; simpl;
    [discriminate|].
  assert (forall page_html st0,
            match page_html with
            | None | Some [] =>
                Crawl.crawl_pages s download_dir max_items html rest all st0
            | Some page_html =>
                let notices := Listing.get_notice_list_with_files (Crawl.rows_of s) page_html in
                let notices :=
                  match Crawl.given max_items with
                  | Some n => take (N.to_nat n) notices
                  | None => notices
                  end in
                match Crawl.process_notices s download_dir st0 notices with
                | (Crawl.Done _, st1) =>
                    Crawl.crawl_pages s download_dir max_items html rest (all ++ notices) st1
                | (Crawl.Failed err, st1) => (Crawl.Failed err, st1)
                end
            end = (Crawl.Failed err, st') ->
            match err with
            | Crawl.KeyError key => key = str "title"
            | Crawl.OSError _ => True
            | Crawl.Escaped _ => False
            end) as Hpage.
  { intros [[|c page_html]|] st0; try apply IH.
    cbv zeta.
    set (found := match Crawl.given max_items with
                  | Some n => take (N.to_nat n) _
                  | None => _
                  end).
    destruct (Crawl.process_notices s download_dir st0 found) as [[u|err1] st1] eqn:En;
      [apply IH|].
    intros [= <- _]. pose proof (process_notices_error _ _ _ _ _ _ En) as He.
    destruct err1; try exact He. apply He. }
  destruct (page_num =? 1).
  - exact (Hpage (Some html) st).
  - exact (Hpage (Crawl.get_page s page_num) (Crawl.request_page page_num st)).
Qed.

(** X21.  A crawl that returns, returns notices that all have a title: a
    row without the title link gives a notice without the key, and the
    progress message of that notice raises KeyError('title').  The other
    ways out are a folder that cannot be made and an exception of
    [get_total_pages] on the first page. *)
Theorem crawl_notices_titled (s : Crawl.site) (download_dir : pystr)
    (max_pages max_items : option N) (st st' : Crawl.state)
    (r : Crawl.outcome (list Listing.notice)) :
  Crawl.crawl_and_download s download_dir max_pages max_items st = (r, st') ->
  match r with
  | Crawl.Done notices => Forall (fun n => is_Some (Listing.title n)) notices
  | Crawl.Failed (Crawl.KeyError key) => key = str "title"
  | Crawl.Failed (Crawl.OSError _) => True
  | Crawl.Failed (Crawl.Escaped e) =>
      exists html, Crawl.get_page s 1 = Some html /\
                   Crawler.get_total_pages (Crawl.soup s) html = Raise e
  end.
Proof.
  unfold Crawl.crawl_and_download.
  destruct (Crawl.get_page s 1) as [[|c html]|];
    try (intros [= <- _]; constructor).
  destruct (Crawler.get_total_pages (Crawl.soup s) (c :: html)) as [total|e] eqn:Et.
  - destruct r as [notices|err]; intros H.
    + destruct (crawl_pages_done _ _ _ _ _ _ _ _ _ H) as (added & urls & -> & Ht & _).
      exact Ht.
    + pose proof (crawl_pages_error _ _ _ _ _ _ _ _ _ H) as He.
      destruct err; try exact He. destruct He.
  - intros [= <- _]. exists (c :: html). split; [reflexivity | exact Et].
Qed.

(** The sample run of X21. *)
Lemma crawl_notices_titled_witness :
  match fst (Crawl.crawl_and_download sample_site (str "mss_downloads") (Some 2) (Some 5)
               initial_state) with
  | Crawl.Done notices => Forall (fun n => is_Some (Listing.title n)) notices
  | Crawl.Failed (Crawl.KeyError key) => key = str "title"
  | Crawl.Failed (Crawl.OSError _) => True
  | Crawl.Failed (Crawl.Escaped e) =>
      exists html, Crawl.get_page sample_site 1 = Some html /\
                   Crawler.get_total_pages (Crawl.soup sample_site) html = Raise e
  end.
Proof.
  apply (crawl_notices_titled sample_site (str "mss_downloads") (Some 2) (Some 5)
           initial_state
           (snd (Crawl.crawl_and_download sample_site (str "mss_downloads")
                   (Some 2) (Some 5) initial_state))).
  apply surjective_pairing.
Defined.

(** X22.  The file requests of a crawl that returns are requests for
    attachments of the notices it returns, in the order of the notices,
    and at most one for each attachment. *)
Theorem crawl_requests_listed (s : Crawl.site) (download_dir : pystr)
    (max_pages max_items : option N) (st st' : Crawl.state)
    (notices : list Listing.notice) :
  Crawl.crawl_and_download s download_dir max_pages max_items st =
    (Crawl.Done notices, st') ->
  exists urls,
    Crawler.requests (Crawl.disk st') = Crawler.requests (Crawl.disk st) ++ urls /\
    incl urls (attachment_urls notices) /\
    (length urls <= length (attachment_urls notices))%nat.
Proof.
  unfold Crawl.crawl_and_download.
  destruct (Crawl.get_page s 1) as [[|c html]|];
    try (intros [= <- <-]; exists []; simpl; rewrite app_nil_r;
         split; [reflexivity|]; split; [apply incl_refl | lia]).
  destruct (Crawler.get_total_pages (Crawl.soup s) (c :: html)) as [total|e]; [|discriminate].
  intros H. destruct (crawl_pages_done _ _ _ _ _ _ _ _ _ H)
    as (added & urls & -> & _ & _ & Hr & Hi & Hl).
  exists urls. split; [exact Hr|]. split; [exact Hi | exact Hl].
Qed.

(** The sample run of X22. *)
Lemma crawl_requests_listed_witness :
  exists urls,
    Crawler.requests
      (Crawl.disk (snd (Crawl.crawl_and_download sample_site (str "mss_downloads")
                          (Some 2) (Some 5) initial_state))) =
      Crawler.requests (Crawl.disk initial_state) ++ urls /\
    incl urls
      (attachment_urls
         (match fst (Crawl.crawl_and_download sample_site (str "mss_downloads")
                       (Some 2) (Some 5) initial_state) with
          | Crawl.Done notices => notices
          | Crawl.Failed _ => []
          end)) /\
    (length urls <=
     length (attachment_urls
               (match fst (Crawl.crawl_and_download sample_site (str "mss_downloads")
                             (Some 2%N) (Some 5%N) initial_state) with
                | Crawl.Done notices => notices
                | Crawl.Failed _ => []
                end)))%nat.
Proof.
  apply (crawl_requests_listed sample_site (str "mss_downloads") (Some 2) (Some 5)
           initial_state
           (snd (Crawl.crawl_and_download sample_site (str "mss_downloads")
                   (Some 2) (Some 5) initial_state))
           (match fst (Crawl.crawl_and_download sample_site (str "mss_downloads")
                         (Some 2) (Some 5) initial_state) with
            | Crawl.Done notices => notices
            | Crawl.Failed _ => []
            end)).
  apply outcome_done_pair. vm_compute. exact I.
Defined.
